(** * Agri-Advisor: the crop prediction engine

    A shallow embedding of [ml-service/app/models/predictor.py] (class
    [CropPredictor]) and [ml-service/app/models/predictor_v3.py] (class
    [CropPredictorV3]), followed by the properties of the prediction
    engine stated in the specification.

    Conventions of the embedding.
    - Python numbers (int and float) are exact rationals [Q]; [round] is
      round-half-to-even on the exact value.  Floating-point rounding error
      is not modelled.
    - A feature dictionary maps text keys to text or to numbers.  It is
      kept as two finite maps, [strs] and [nums]; a text value under a
      numeric key (or the reverse) is outside the model.
    - [str.upper] acts on the ASCII letters.
    - A Python [set] of strings is a [gset string]; the order in which a
      [for] loop visits it is given by a function [set_iter], fixed for
      the life of the process.
    - A call into a pickled scikit-learn object (scaler, classifier,
      regressor) returns [None] when it raises.
    - [print] calls are left out. *)

From Stdlib Require Import QArith Qround Qabs Qminmax Lqa Lia ZArith Ascii String
  DecimalString Sorted.
From stdpp Require Import gmap strings list fin_maps.

Local Open Scope Q_scope.
Local Open Scope string_scope.

(** ** Python primitives *)

Module Py.

(** [a < b] and [a <= b] on numbers, as booleans. *)
Definition ltb (a b : Q) : bool := negb (Qle_bool b a).
Definition leb (a b : Q) : bool := Qle_bool a b.

(** [max(a, b)] keeps [a] unless [b] is greater; [min(a, b)] keeps [a]
    unless [b] is smaller. *)
Definition max (a b : Q) : Q := if ltb a b then b else a.
Definition min (a b : Q) : Q := if ltb b a then b else a.

(** Nearest integer, ties to the even one. *)
Definition round_half_even (x : Q) : Z :=
  let f := Qfloor x in
  match Qcompare (x - inject_Z f) (1 # 2) with
  | Lt => f
  | Gt => (f + 1)%Z
  | Eq => if Z.even f then f else (f + 1)%Z
  end.

(** [round(x, ndigits)]. *)
Definition round (x : Q) (ndigits : nat) : Q :=
  let p := Pos.pow 10 (Pos.of_nat ndigits) in
  match ndigits with
  | O => inject_Z (round_half_even x)
  | S _ => Qmake (round_half_even (x * inject_Z (Zpos p))) p
  end.

(** [str(n)] for an int. *)
Definition str_int (z : Z) : string := NilZero.string_of_int (Z.to_int z).

(** [format(x, '.1f')]. *)
Definition fmt_1f (x : Q) : string :=
  let z := Z.abs (round_half_even (x * 10)) in
  (if ltb x 0 then "-" else "")
    ++ str_int (z / 10) ++ "." ++ str_int (z mod 10).

(** [str.upper]. *)
Definition upper_ascii (c : ascii) : ascii :=
  let n := nat_of_ascii c in
  if ((97 <=? n) && (n <=? 122))%nat then ascii_of_nat (n - 32) else c.

Fixpoint upper (s : string) : string :=
  match s with
  | EmptyString => EmptyString
  | String c s' => String (upper_ascii c) (upper s')
  end.

(** [l.index(x)], for an [x] known to be in [l]. *)
Fixpoint index (x : string) (l : list string) : nat :=
  match l with
  | [] => O
  | y :: l' => if String.eqb y x then O else S (index x l')
  end.

(** [x in l] for a list of strings. *)
Definition mem (x : string) (l : list string) : bool :=
  bool_decide (x ∈ l).

(** [l.sort(key=k, reverse=True)]: a stable sort into descending key
    order.  [lt x y] says that the key of [x] is below the key of [y]. *)
Section Sort.
Context {A : Type} (lt : A -> A -> bool).

Fixpoint insert_desc (x : A) (l : list A) : list A :=
    match l with
    | [] => [x]
    | y :: l' => if lt x y then y :: insert_desc x l' else x :: y :: l'
    end.

Definition sort_desc (l : list A) : list A := foldr insert_desc [] l.

(** [ge a b]: the key of [a] is not below the key of [b];
    [same_key a b]: neither key is below the other. *)
Definition ge (a b : A) : Prop := lt a b = false.
Definition same_key (a b : A) : bool := negb (lt a b) && negb (lt b a).
End Sort.

(** [sum(l)] and [np.mean(l)]. *)
Definition sum (l : list Q) : Q := foldr Qplus 0 l.
Definition mean (l : list Q) : Q := sum l / inject_Z (Z.of_nat (length l)).

End Py.

(** ** The feature dictionary *)

Record FeatureInput := {
  strs : gmap string string;
  nums : gmap string Q
}.

(** [features.get(k, d)] *)
Definition get_str (f : FeatureInput) (k d : string) : string :=
  default d (strs f !! k).
Definition get_num (f : FeatureInput) (k : string) (d : Q) : Q :=
  default d (nums f !! k).

(** [features[k] = v] for a text value *)
Definition set_str (f : FeatureInput) (k v : string) : FeatureInput :=
  {| strs := <[k := v]> (strs f); nums := nums f |}.

(** Truth value of a dictionary: non-empty. *)
Definition truthy (f : FeatureInput) : bool :=
  negb (bool_decide (strs f = ∅) && bool_decide (nums f = ∅)).

(** ** Output records *)

Record YieldPrediction := {
  yp_min : Q;
  yp_max : Q;
  yp_expected : Q;
  yp_unit : string
}.

Record EnvFactors := {
  soilMatch : Q;
  npkMatch : Q;
  weatherMatch : Q;
  historicalYield : Q
}.

Inductive version := V1 | V2 | V3.

#[global] Instance version_eq_dec : EqDecision version.
Proof. solve_decision. Defined.

(** An index or a count, as a number. *)
Definition qnat (n : nat) : Q := inject_Z (Z.of_nat n).

(** [d[k]] for a JSON object whose key order matters: the first pair
    with key [k]. *)
Definition assoc {A} (k : string) (d : list (string * A)) : option A :=
  snd <$> find (fun p => String.eqb (fst p) k) d.

(** ** predictor.py: class CropPredictor *)

Module Predictor.

(** Temperature ranges for crop categories (optimal growing conditions) *)
Definition CROP_TEMP_RANGES : gmap string (Z * Z) :=
  list_to_map
    [ ("CEREALS_WHEAT", (10, 25)%Z);
      ("CEREALS_RICE", (20, 35)%Z);
      ("CEREALS_MAIZE", (18, 32)%Z);
      ("CEREALS_BARLEY", (8, 22)%Z);
      ("CEREALS_MILLETS", (25, 40)%Z);
      ("PULSES", (15, 30)%Z);
      ("OILSEEDS", (20, 35)%Z);
      ("SUGARCANE", (20, 35)%Z);
      ("COTTON", (21, 35)%Z);
      ("JUTE", (24, 37)%Z);
      ("TOBACCO", (18, 28)%Z);
      ("VEGETABLES", (15, 30)%Z);
      ("FRUITS", (15, 35)%Z);
      ("SPICES", (20, 35)%Z);
      ("PLANTATION", (20, 30)%Z);
      ("FIBER", (25, 35)%Z) ].

(** Default season-crop mapping *)
Definition DEFAULT_SEASON_CROPS : gmap string (list string) :=
  list_to_map
    [ ("KHARIF", ["CEREALS_RICE"; "CEREALS_MAIZE"; "CEREALS_MILLETS"; "PULSES";
                  "OILSEEDS"; "COTTON"; "JUTE"; "SUGARCANE"; "VEGETABLES";
                  "FRUITS"]);
      ("RABI", ["CEREALS_WHEAT"; "CEREALS_BARLEY"; "PULSES"; "OILSEEDS";
                "VEGETABLES"; "SPICES"; "TOBACCO"]);
      ("SUMMER", ["CEREALS_MAIZE"; "CEREALS_MILLETS"; "PULSES"; "VEGETABLES";
                  "FRUITS"; "OILSEEDS"]);
      ("WINTER", ["CEREALS_WHEAT"; "CEREALS_BARLEY"; "VEGETABLES"; "SPICES";
                  "OILSEEDS"; "PULSES"]);
      ("AUTUMN", ["CEREALS_RICE"; "PULSES"; "VEGETABLES"; "OILSEEDS";
                  "CEREALS_MAIZE"]);
      ("WHOLE YEAR", ["SUGARCANE"; "VEGETABLES"; "FRUITS"; "PLANTATION";
                      "SPICES"; "FIBER"]) ].

(** Default yields by crop category (the literal [default_yields] of
    [_predict_yield_ml] and of [_predict_with_rules]). *)
Definition default_yields : gmap string Q :=
  list_to_map
    [ ("CEREALS_WHEAT", 3500); ("CEREALS_RICE", 3000); ("CEREALS_MAIZE", 4000);
      ("CEREALS_BARLEY", 2800); ("CEREALS_MILLETS", 1500); ("PULSES", 1200);
      ("OILSEEDS", 1200); ("SUGARCANE", 70000); ("COTTON", 500);
      ("JUTE", 2500); ("TOBACCO", 1800); ("VEGETABLES", 15000);
      ("FRUITS", 10000); ("SPICES", 2000); ("PLANTATION", 5000);
      ("FIBER", 1500) ].

(** The encoder tables of [encoders*.json].  An absent [state_classes] or
    [district_classes] reads as the empty list ([.get(.., [])]). *)
Record Encoders := {
  state_classes : list string;
  district_classes : list string;
  season_classes : option (list string);
  crop_classes : option (list string)
}.

(** The attributes [_load_models] sets on the predictor.  [classifier]
    stands for [predict_proba(X)[0]], [scaler] for [transform(X)],
    [yield_regressor] for [predict(X)[0]].  [season_crop_map] is [None]
    when the attribute was never set (v1, v2 and no-model loads). *)
Record Model := {
  use_ml_model : bool;
  model_version : option version;
  classifier : list Q -> option (list Q);
  scaler : list Q -> option (list Q);
  yield_regressor : list Q -> option Q;
  encoders : Encoders;
  season_crop_map : option (gmap string (list (string * list string)));
  crop_profiles : gmap string (gmap string (gmap string Q));
  district_profiles : gmap string (gmap string (gmap string Q))
}.

(** What [_load_models] leaves when no classifier file is found. *)
Definition no_model : Model :=
  {| use_ml_model := false;
     model_version := None;
     classifier := fun _ => None;
     scaler := fun _ => None;
     yield_regressor := fun _ => None;
     encoders := {| state_classes := []; district_classes := [];
                    season_classes := None; crop_classes := Some [] |};
     season_crop_map := None;
     crop_profiles := ∅;
     district_profiles := ∅ |}.

Record ScoredCrop := {
  idx : nat;
  crop_name : string;
  score : Q;
  is_season_match : bool;
  temp_suitability : Q
}.

Record Recommendation := {
  cropName : string;
  suitabilityScore : Q;
  yieldPrediction : YieldPrediction;
  explanation : string;
  environmentalFactors : EnvFactors;
  seasonMatch : bool;
  temperatureSuitability : Q
}.

(** [_prepare_features] *)
Definition _prepare_features (m : Model) (features : FeatureInput) : list Q :=
  let state := Py.upper (get_str features "state" "") in
  let district := Py.upper (get_str features "district" "") in
  let season := Py.upper (get_str features "season" "KHARIF") in
  let state_encoded :=
    if Py.mem state (state_classes (encoders m))
    then Py.index state (state_classes (encoders m)) else O in
  let district_encoded :=
    if Py.mem district (district_classes (encoders m))
    then Py.index district (district_classes (encoders m)) else O in
  let season_encoded :=
    match season_classes (encoders m) with
    | Some season_classes =>
        if Py.mem season season_classes then Py.index season season_classes else O
    | None =>
        let season_mapping : gmap string nat :=
          list_to_map [("KHARIF", 0%nat); ("RABI", 1%nat); ("WHOLE YEAR", 2%nat);
                       ("SUMMER", 3%nat); ("WINTER", 4%nat); ("AUTUMN", 5%nat)] in
        default O (season_mapping !! season)
    end in
  let zn := get_num features "soil_zn" 60.0 in
  let fe := get_num features "soil_fe" 80.0 in
  let cu := get_num features "soil_cu" 90.0 in
  let mn := get_num features "soil_mn" 85.0 in
  let b := get_num features "soil_b" 70.0 in
  let s := get_num features "soil_s" 75.0 in
  let temperature := get_num features "avg_temperature" 28.0 in
  let humidity := get_num features "avg_humidity" 60.0 in
  let moisture := get_num features "soil_moisture" 45.0 in
  let nitrogen := get_num features "soil_nitrogen" 100 in
  let potassium := get_num features "soil_potassium" 150 in
  let phosphorus := get_num features "soil_phosphorus" 20 in
  match model_version m with
  | Some V3 =>
      let yield_mean := 2000.0 in
      let avg_area := 1000.0 in
      [ qnat state_encoded; qnat district_encoded; qnat season_encoded;
        zn; fe; cu; mn; b; s;
        yield_mean; avg_area;
        temperature; humidity; nitrogen; potassium; phosphorus ]
  | Some V2 =>
      let key := state ++ "_" ++ district in
      let yield_mean :=
        match district_profiles m !! key with
        | Some crops =>
            if bool_decide (crops = ∅) then 2000.0
            else Py.mean ((fun c : string * gmap string Q =>
                             default 2000 (snd c !! "avg_yield"))
                            <$> map_to_list crops)
        | None => 2000.0
        end in
      let total_area := 1000.0 in
      [ qnat state_encoded; qnat district_encoded; qnat season_encoded;
        zn; fe; cu; mn; b; s;
        yield_mean; total_area;
        temperature - 5; temperature + 5; temperature;
        Py.max 30 (humidity - 15); Py.min 100 (humidity + 15); humidity;
        moisture; nitrogen; potassium; phosphorus ]
  | _ =>
      [ qnat season_encoded;
        zn; fe; cu; mn; b; s;
        temperature; humidity; moisture;
        nitrogen; potassium; phosphorus;
        qnat state_encoded; qnat district_encoded ]
  end.

(** [_get_district_historical_data]; a district profile is kept as its
    ['crops'] table. *)
Definition _get_district_historical_data (m : Model) (state district crop : string)
  : option (gmap string Q) :=
  let key := state ++ "_" ++ district in
  match district_profiles m !! key with
  | Some crops => crops !! crop
  | None => None
  end.

(** [_calculate_suitability_score_ml]; [probabilities] is the row
    [probabilities[0]]. *)
Definition _calculate_suitability_score_ml (m : Model) (crop_idx : nat)
    (probabilities : list Q) (features : FeatureInput) : Q :=
  let base_score := 30.0 in
  let base_score :=
    match probabilities !! crop_idx with
    | Some prob =>
        let prob_score :=
          if bool_decide (model_version m = Some V2 \/ model_version m = Some V3) then
            if Py.leb 0.3 prob then 65 + (prob - 0.3) * 50
            else if Py.leb 0.15 prob then 50 + (prob - 0.15) * 100
            else if Py.leb 0.05 prob then 30 + (prob - 0.05) * 200
            else prob * 600
          else Py.min 50 (prob * 500) in
        base_score + prob_score
    | None => base_score
    end in
  let base_score :=
    if truthy features then
      let temp := get_num features "avg_temperature" 25 in
      let humidity := get_num features "avg_humidity" 60 in
      let base_score :=
        if Py.leb 20 temp && Py.leb temp 32 then base_score + 8
        else if Py.leb 15 temp && Py.leb temp 35 then base_score + 4
        else base_score in
      if Py.leb 50 humidity && Py.leb humidity 75 then base_score + 7
      else if Py.leb 40 humidity && Py.leb humidity 80 then base_score + 3
      else base_score
    else base_score in
  Py.min 100 (Py.max 0 base_score).

(** [_calculate_temp_suitability] *)
Definition _calculate_temp_suitability (crop : string) (temperature : Q) : Q :=
  match CROP_TEMP_RANGES !! crop with
  | None => 0.7
  | Some (temp_min, temp_max) =>
      let temp_min := inject_Z temp_min in
      let temp_max := inject_Z temp_max in
      let optimal_temp := (temp_min + temp_max) / 2 in
      if Py.leb temp_min temperature && Py.leb temperature temp_max then
        let distance :=
          Qabs (temperature - optimal_temp) / ((temp_max - temp_min) / 2) in
        1.0 - (distance * 0.2)
      else if Py.ltb temperature temp_min then
        let deficit := temp_min - temperature in
        Py.max 0.2 (0.8 - (deficit * 0.05))
      else
        let excess := temperature - temp_max in
        Py.max 0.2 (0.8 - (excess * 0.05))
  end.

(** [_get_crops_for_season] *)
Definition _get_crops_for_season (m : Model) (state district season : string)
  : gset string :=
  let season := Py.upper season in
  let historical : option (gset string) :=
    match season_crop_map m with
    | Some scm =>
        if bool_decide (scm = ∅) then None
        else
          let key := Py.upper (state ++ "_" ++ district) in
          match scm !! season with
          | Some by_location =>
              match assoc key by_location with
              | Some crops => Some (list_to_set crops)
              | None =>
                  match find (fun k => String.prefix (Py.upper state) (fst k))
                             by_location with
                  | Some k => Some (list_to_set (snd k))
                  | None => None
                  end
              end
          | None => None
          end
    | None => None
    end in
  match historical with
  | Some crops => crops
  | None => list_to_set (default [] (DEFAULT_SEASON_CROPS !! season))
  end.

(** The value [_predict_yield_ml] returns from its [except] branch. *)
Definition SAFE_DEFAULT_YIELD : YieldPrediction :=
  {| yp_min := 1000; yp_max := 3000; yp_expected := 2000;
     yp_unit := "kg/hectare" |}.

Section Engine.

(** Iteration order of a set of strings, and NumPy's [expm1]. *)
Variable set_iter : gset string -> list string.
Variable expm1 : Q -> Q.

(** The [try] block of [_predict_yield_ml]; [None] when it raises. *)
Definition _predict_yield_ml_try (m : Model) (feature_vector : list Q)
    (crop : string) (features : FeatureInput) : option YieldPrediction :=
  let state := Py.upper (get_str features "state" "") in
  let district := Py.upper (get_str features "district" "") in
  let season := Py.upper (get_str features "season" "KHARIF") in
  let temperature := get_num features "avg_temperature" 28.0 in
  match model_version m with
  | Some V3 =>
      let key := Py.upper (state ++ "_" ++ district ++ "_" ++ season) in
      match crop_profiles m !! key ≫= (fun by_crop => by_crop !! crop) with
      | Some profile =>
          let yield_mean := default 2000 (profile !! "yield_mean") in
          let yield_std := default 500 (profile !! "yield_std") in
          let temp_suit := _calculate_temp_suitability crop temperature in
          let expected := yield_mean * temp_suit in
          Some {| yp_min := Py.round (Py.max 100 (expected - yield_std)) 0;
                  yp_max := Py.round (expected + yield_std) 0;
                  yp_expected := Py.round expected 0;
                  yp_unit := "kg/hectare" |}
      | None =>
          let base_yield := default 2000 (default_yields !! crop) in
          let temp_suit := _calculate_temp_suitability crop temperature in
          let expected := base_yield * temp_suit in
          Some {| yp_min := Py.round (expected * 0.7) 0;
                  yp_max := Py.round (expected * 1.3) 0;
                  yp_expected := Py.round expected 0;
                  yp_unit := "kg/hectare" |}
      end
  | version =>
      let log_yield :=
        match version with
        | Some V2 =>
            let crop_classes := default [] (crop_classes (encoders m)) in
            let crop_encoded :=
              if Py.mem crop crop_classes then Py.index crop crop_classes else O in
            let zn := get_num features "soil_zn" 60.0 in
            let fe := get_num features "soil_fe" 80.0 in
            let cu := get_num features "soil_cu" 90.0 in
            let mn := get_num features "soil_mn" 85.0 in
            let b := get_num features "soil_b" 70.0 in
            let s := get_num features "soil_s" 75.0 in
            let temperature := get_num features "avg_temperature" 28.0 in
            let humidity := get_num features "avg_humidity" 60.0 in
            let moisture := get_num features "soil_moisture" 45.0 in
            let nitrogen := get_num features "soil_nitrogen" 100 in
            let potassium := get_num features "soil_potassium" 150 in
            let phosphorus := get_num features "soil_phosphorus" 20 in
            let season := Py.upper (get_str features "season" "KHARIF") in
            let state_encoded :=
              if Py.mem state (state_classes (encoders m))
              then Py.index state (state_classes (encoders m)) else O in
            let district_encoded :=
              if Py.mem district (district_classes (encoders m))
              then Py.index district (district_classes (encoders m)) else O in
            let season_encoded :=
              match season_classes (encoders m) with
              | Some season_classes =>
                  if Py.mem season season_classes
                  then Py.index season season_classes else O
              | None => O
              end in
            let yield_features :=
              [ qnat state_encoded; qnat district_encoded; qnat season_encoded;
                qnat crop_encoded;
                zn; fe; cu; mn; b; s;
                temperature - 5; temperature + 5; temperature;
                Py.max 30 (humidity - 15); Py.min 100 (humidity + 15); humidity;
                moisture; nitrogen; potassium; phosphorus ] in
            yield_regressor m yield_features
        | _ =>
            scaler m feature_vector ≫= yield_regressor m
        end in
      match log_yield with
      | None => None
      | Some log_yield =>
          let predicted_yield := expm1 log_yield in
          let predicted_yield_kg := predicted_yield * 1000 in
          let historical := _get_district_historical_data m state district crop in
          let '(expected, min_yield, max_yield) :=
            match historical with
            | Some historical =>
                if bool_decide (historical = ∅)
                then (predicted_yield_kg, predicted_yield_kg * 0.8,
                      predicted_yield_kg * 1.2)
                else
                  let hist_avg :=
                    default predicted_yield (historical !! "avg_yield") * 1000 in
                  let hist_min :=
                    default (predicted_yield * 0.7) (historical !! "min_yield")
                    * 1000 in
                  let hist_max :=
                    default (predicted_yield * 1.3) (historical !! "max_yield")
                    * 1000 in
                  (0.4 * predicted_yield_kg + 0.6 * hist_avg,
                   Py.min (predicted_yield_kg * 0.8) hist_min,
                   Py.max (predicted_yield_kg * 1.2) hist_max)
            | None =>
                (predicted_yield_kg, predicted_yield_kg * 0.8,
                 predicted_yield_kg * 1.2)
            end in
          let expected := Py.max 100 expected in
          let min_yield := Py.max 50 min_yield in
          let max_yield := Py.max (expected * 1.1) max_yield in
          Some {| yp_min := Py.round min_yield 0;
                  yp_max := Py.round max_yield 0;
                  yp_expected := Py.round expected 0;
                  yp_unit := "kg/hectare" |}
      end
  end.

(** [_predict_yield_ml]: the [try] block, and the [except] branch. *)
Definition _predict_yield_ml (m : Model) (feature_vector : list Q)
    (crop : string) (features : FeatureInput) : YieldPrediction :=
  match _predict_yield_ml_try m feature_vector crop features with
  | Some yield_pred => yield_pred
  | None => SAFE_DEFAULT_YIELD
  end.

(** [_calculate_environmental_factors] *)
Definition _calculate_environmental_factors (features : FeatureInput)
    (historical : option (gmap string Q)) : EnvFactors :=
  let soil_score :=
    foldl (fun soil_score nutrient =>
             let val := get_num features nutrient 50 in
             if Py.leb 50 val then soil_score + 25
             else if Py.leb 30 val then soil_score + 15
             else soil_score)
          0 ["soil_zn"; "soil_fe"; "soil_cu"; "soil_mn"] in
  let npk_score := 0 in
  let nitrogen := get_num features "soil_nitrogen" 100 in
  let npk_score :=
    if Py.leb 50 nitrogen && Py.leb nitrogen 200 then npk_score + 35
    else npk_score in
  let phosphorus := get_num features "soil_phosphorus" 20 in
  let npk_score :=
    if Py.leb 10 phosphorus && Py.leb phosphorus 50 then npk_score + 35
    else npk_score in
  let potassium := get_num features "soil_potassium" 150 in
  let npk_score :=
    if Py.leb 80 potassium && Py.leb potassium 250 then npk_score + 30
    else npk_score in
  let weather_score := 0 in
  let temp := get_num features "avg_temperature" 25 in
  let weather_score :=
    if Py.leb 20 temp && Py.leb temp 35 then weather_score + 50
    else weather_score in
  let humidity := get_num features "avg_humidity" 60 in
  let weather_score :=
    if Py.leb 40 humidity && Py.leb humidity 80 then weather_score + 50
    else weather_score in
  let historical_score := 70 in
  let historical_score :=
    match historical with
    | Some historical =>
        if bool_decide (historical = ∅) then historical_score
        else
          let std := default 0 (historical !! "std_yield") in
          let avg := default 1 (historical !! "avg_yield") in
          if Py.ltb 0 avg then
            let cv := std / avg in
            Py.max 50 (Py.min 100 (100 - cv * 100))
          else historical_score
    | None => historical_score
    end in
  {| soilMatch := Py.round (Py.min 100 soil_score) 1;
     npkMatch := Py.round (Py.min 100 npk_score) 1;
     weatherMatch := Py.round (Py.min 100 weather_score) 1;
     historicalYield := Py.round historical_score 1 |}.

(** [_generate_season_explanation] *)
Definition _generate_season_explanation (crop_name : string)
    (features : FeatureInput) (score : Q) (is_season_match : bool)
    (temp_suit : Q) (historical : option (gmap string Q)) : string :=
  let explanations :=
    [ if Py.leb 85 score then crop_name ++ " is highly recommended for your conditions."
      else if Py.leb 70 score then crop_name ++ " is well suited for your location."
      else if Py.leb 55 score then crop_name ++ " is suitable for your conditions."
      else crop_name ++ " is moderately suitable." ] in
  let season := get_str features "season" "Kharif" in
  let explanations :=
    app explanations
     [ if is_season_match
       then "Historically grown during " ++ season ++ " season in your region."
       else "Not typically grown in " ++ season
            ++ " - consider alternative seasons." ] in
  let temp := get_num features "avg_temperature" 25 in
  let temp_range := default (15, 35)%Z (CROP_TEMP_RANGES !! crop_name) in
  let explanations :=
    app explanations
    [ if Py.leb 0.8 temp_suit
      then "Temperature (" ++ Py.fmt_1f temp ++ "°C) is optimal for this crop."
      else if Py.leb 0.6 temp_suit
      then "Temperature (" ++ Py.fmt_1f temp ++ "°C) is suitable; optimal is "
           ++ Py.str_int (fst temp_range) ++ "-" ++ Py.str_int (snd temp_range)
           ++ "°C."
      else "Temperature (" ++ Py.fmt_1f temp ++ "°C) is not ideal; optimal is "
           ++ Py.str_int (fst temp_range) ++ "-" ++ Py.str_int (snd temp_range)
           ++ "°C." ] in
  let explanations :=
    match historical with
    | Some historical =>
        if bool_decide (historical = ∅) then explanations
        else app explanations ["Based on historical data from your district."]
    | None => explanations
    end in
  String.concat " " explanations.

(** Ordering of recommendations by the key [x['suitabilityScore']]. *)
Definition rec_lt (a b : Recommendation) : bool :=
  Py.ltb (suitabilityScore a) (suitabilityScore b).

(** [_predict_with_rules]; [season_crops] is [None] when the argument is
    left out. *)
Definition _predict_with_rules (features : FeatureInput)
    (season_crops : option (gset string)) : list Recommendation :=
  let season := Py.upper (get_str features "season" "KHARIF") in
  let temperature := get_num features "avg_temperature" 25 in
  let season_crops :=
    match season_crops with
    | None => default [] (DEFAULT_SEASON_CROPS !! season)
    | Some season_crops => set_iter season_crops
    end in
  let recommendations :=
    flat_map
      (fun crop_name =>
         let temp_suit := _calculate_temp_suitability crop_name temperature in
         let score := 50 + (temp_suit * 40) in
         if Py.ltb score 30 then []
         else
           let base_yield := default 2000 (default_yields !! crop_name) * temp_suit in
           let yield_pred :=
             {| yp_min := Py.round (base_yield * 0.7) 0;
                yp_max := Py.round (base_yield * 1.3) 0;
                yp_expected := Py.round base_yield 0;
                yp_unit := "kg/hectare" |} in
           let temp_range := default (15, 35)%Z (CROP_TEMP_RANGES !! crop_name) in
           let explanation :=
             crop_name ++ " is recommended for " ++ season
             ++ " season. Temperature (" ++ Py.fmt_1f temperature ++ "°C) " in
           let explanation :=
             if Py.leb 0.8 temp_suit
             then explanation ++ "is optimal (ideal: "
                  ++ Py.str_int (fst temp_range) ++ "-"
                  ++ Py.str_int (snd temp_range) ++ "°C)."
             else explanation ++ "is acceptable (optimal: "
                  ++ Py.str_int (fst temp_range) ++ "-"
                  ++ Py.str_int (snd temp_range) ++ "°C)." in
           let env_factors := _calculate_environmental_factors features None in
           [ {| cropName := crop_name;
                suitabilityScore := Py.round score 1;
                yieldPrediction := yield_pred;
                explanation := explanation;
                environmentalFactors := env_factors;
                seasonMatch := true;
                temperatureSuitability := Py.round (temp_suit * 100) 1 |} ])
      season_crops in
  Py.sort_desc rec_lt recommendations.

(** The season adjustment and the temperature penalty that the scoring
    loop of [predict] applies to a base score. *)
Definition adjust_score (is_season_match : bool) (score temp_suit : Q) : Q :=
  let score :=
    if is_season_match
    then Py.min 100 (score * 1.25) + temp_suit * 10
    else score * 0.35 in
  if Py.ltb temp_suit 0.5 then score * 0.8 else score.

(** One round of the scoring loop of [predict]. *)
Definition score_crop (m : Model) (features : FeatureInput) (temperature : Q)
    (season_crops : gset string) (probabilities : list Q)
    (idx : nat) (crop_name : string) : ScoredCrop :=
  let is_season_match := bool_decide (crop_name ∈ season_crops) in
  let score := _calculate_suitability_score_ml m idx probabilities features in
  let temp_suit := _calculate_temp_suitability crop_name temperature in
  let score := adjust_score is_season_match score temp_suit in
  {| idx := idx; crop_name := crop_name; score := score;
     is_season_match := is_season_match; temp_suitability := temp_suit |}.

(** Ordering of scored crops by the key
    [(x['is_season_match'], x['score'])]. *)
Definition scored_lt (a b : ScoredCrop) : bool :=
  match is_season_match a, is_season_match b with
  | false, true => true
  | true, false => false
  | _, _ => Py.ltb (score a) (score b)
  end.

(** The scoring loop of [predict] and the sort that follows it. *)
Definition sorted_scores (m : Model) (features : FeatureInput) (temperature : Q)
    (season_crops : gset string) (probabilities : list Q)
    (crop_classes : list string) : list ScoredCrop :=
  let all_scores :=
    concat
      (imap (fun idx crop_name =>
               if (length probabilities <=? idx)%nat then []
               else [score_crop m features temperature season_crops
                                probabilities idx crop_name])
            crop_classes) in
  Py.sort_desc scored_lt all_scores.

(** The loop of [predict] that builds recommendations from the first
    fifteen scored crops. *)
Definition build_recommendations (m : Model) (features : FeatureInput)
    (state district : string) (feature_vector : list Q)
    (all_scores : list ScoredCrop) : list Recommendation :=
  flat_map
    (fun item =>
       let crop_name := crop_name item in
       let score := score item in
       let is_season_match := is_season_match item in
       let temp_suit := temp_suitability item in
       if Py.ltb score 30 then []
       else
         let historical :=
           _get_district_historical_data m state district crop_name in
         let yield_pred := _predict_yield_ml m feature_vector crop_name features in
         let explanation :=
           _generate_season_explanation crop_name features score
                                        is_season_match temp_suit historical in
         let env_factors := _calculate_environmental_factors features historical in
         [ {| cropName := crop_name;
              suitabilityScore := Py.round score 1;
              yieldPrediction := yield_pred;
              explanation := explanation;
              environmentalFactors := env_factors;
              seasonMatch := is_season_match;
              temperatureSuitability := Py.round (temp_suit * 100) 1 |} ])
    (take 15 all_scores).

(** The [try] block of [predict]; [None] when it raises. *)
Definition predict_ml_try (m : Model) (features : FeatureInput)
    (state district : string) (temperature : Q) (season_crops : gset string)
  : option (list Recommendation) :=
  let feature_vector := _prepare_features m features in
  scaled_features ← scaler m feature_vector;
  probabilities ← classifier m scaled_features;
  crop_classes ← crop_classes (encoders m);
  Some (build_recommendations m features state district feature_vector
          (sorted_scores m features temperature season_crops probabilities
                         crop_classes)).

(** The block of [predict] that tops a short list up from the rules. *)
Definition supplement (recommendations rule_recs : list Recommendation)
  : list Recommendation :=
  let existing_crops : gset string := list_to_set (cropName <$> recommendations) in
  foldl (fun recommendations rec =>
           if negb (bool_decide (cropName rec ∈ existing_crops))
              && (length recommendations <? 5)%nat
           then app recommendations [rec]
           else recommendations)
        recommendations rule_recs.

(** [predict] up to its final sort: the caller's dictionary after the
    call, and the list [recommendations] as it stands before the sort. *)
Definition predict_candidates (m : Model) (features : FeatureInput)
  : FeatureInput * list Recommendation :=
  let state := Py.upper (get_str features "state" "") in
  let district := Py.upper (get_str features "district" "") in
  let season := Py.upper (get_str features "season" "KHARIF") in
  let temperature := get_num features "avg_temperature" 25 in
  let features := set_str features "state" state in
  let features := set_str features "district" district in
  let features := set_str features "season" season in
  let season_crops := _get_crops_for_season m state district season in
  let recommendations :=
    if use_ml_model m then
      match predict_ml_try m features state district temperature season_crops with
      | Some recommendations => recommendations
      | None => _predict_with_rules features (Some season_crops)
      end
    else _predict_with_rules features (Some season_crops) in
  let recommendations :=
    if (length recommendations <? 5)%nat then
      let rule_recs := _predict_with_rules features (Some season_crops) in
      supplement recommendations rule_recs
    else recommendations in
  (features, recommendations).

(** [predict]: the caller's dictionary after the call, and the returned
    list. *)
Definition predict (m : Model) (features : FeatureInput)
  : FeatureInput * list Recommendation :=
  let '(features, recommendations) := predict_candidates m features in
  let recommendations := Py.sort_desc rec_lt recommendations in
  (features, take 5 recommendations).

End Engine.


(** *** The crop database of the older rule-based scorer *)

(** One entry of [self.crops].  Every field is read with [.get] and a
    default, so each may be absent. *)
Record CropData := {
  cd_season : option (list string);
  cd_temp_range : option (Q * Q);
  cd_humidity_range : option (Q * Q);
  cd_nitrogen_range : option (Q * Q);
  cd_phosphorus_range : option (Q * Q);
  cd_potassium_range : option (Q * Q);
  cd_base_yield : option Q
}.

Definition crop_entry (season : list string)
    (temp humidity nitrogen phosphorus potassium : Q * Q) (base_yield : Q)
  : CropData :=
  {| cd_season := Some season;
     cd_temp_range := Some temp;
     cd_humidity_range := Some humidity;
     cd_nitrogen_range := Some nitrogen;
     cd_phosphorus_range := Some phosphorus;
     cd_potassium_range := Some potassium;
     cd_base_yield := Some base_yield |}.

(** [_load_crop_database]: the table it stores in [self.crops]. *)
Definition _load_crop_database : gmap string CropData :=
  list_to_map
    [ ("RICE", crop_entry ["KHARIF"] (20, 35) (60, 80) (80, 150) (15, 30)
                          (100, 200) 3000);
      ("WHEAT", crop_entry ["RABI"] (15, 25) (50, 70) (100, 180) (20, 40)
                           (120, 220) 3500);
      ("MAIZE", crop_entry ["KHARIF"; "RABI"] (18, 30) (50, 70) (120, 200)
                           (25, 45) (150, 250) 4000);
      ("COTTON", crop_entry ["KHARIF"] (21, 30) (50, 65) (80, 150) (15, 35)
                            (100, 200) 500);
      ("SUGARCANE", crop_entry ["KHARIF"; "WHOLE YEAR"] (20, 32) (60, 80)
                               (150, 250) (30, 60) (200, 350) 70000);
      ("GROUNDNUT", crop_entry ["KHARIF"; "RABI"] (24, 33) (50, 65) (40, 80)
                               (15, 30) (80, 150) 2500);
      ("PULSES", crop_entry ["RABI"; "KHARIF"] (20, 30) (50, 65) (20, 50)
                            (20, 40) (80, 150) 1200);
      ("MILLETS", crop_entry ["KHARIF"] (25, 35) (40, 60) (30, 80) (15, 30)
                             (60, 120) 1500);
      ("BARLEY", crop_entry ["RABI"] (12, 25) (40, 60) (40, 80) (15, 30)
                            (60, 120) 2800);
      ("OIL SEEDS", crop_entry ["KHARIF"; "RABI"] (20, 32) (50, 70) (40, 100)
                               (20, 40) (80, 160) 1200) ].

(** [_calculate_suitability_score_rules] *)
Definition _calculate_suitability_score_rules (crop_data : CropData)
    (features : FeatureInput) : Q :=
  let score := 100.0 in
  let season := Py.upper (get_str features "season" "KHARIF") in
  if negb (Py.mem season (default [] (cd_season crop_data))) then 0.0
  else
    let temp := get_num features "avg_temperature" 25 in
    let '(temp_min, temp_max) := default (20, 35) (cd_temp_range crop_data) in
    let score :=
      if Py.ltb temp temp_min || Py.ltb temp_max temp then score - 25
      else
        let temp_optimal := (temp_min + temp_max) / 2 in
        let temp_deviation :=
          Qabs (temp - temp_optimal) / Py.max 1 (temp_max - temp_min) in
        score - temp_deviation * 15 in
    let humidity := get_num features "avg_humidity" 60 in
    let '(h_min, h_max) := default (50, 70) (cd_humidity_range crop_data) in
    let score :=
      if Py.leb h_min humidity && Py.leb humidity h_max then score + 5
      else score - 10 in
    let nitrogen := get_num features "soil_nitrogen" 100 in
    let '(n_min, n_max) := default (50, 150) (cd_nitrogen_range crop_data) in
    let score :=
      if Py.leb n_min nitrogen && Py.leb nitrogen n_max then score + 5
      else score in
    let phosphorus := get_num features "soil_phosphorus" 20 in
    let '(p_min, p_max) := default (15, 40) (cd_phosphorus_range crop_data) in
    let score :=
      if Py.leb p_min phosphorus && Py.leb phosphorus p_max then score + 5
      else score in
    let potassium := get_num features "soil_potassium" 150 in
    let '(k_min, k_max) := default (100, 200) (cd_potassium_range crop_data) in
    let score :=
      if Py.leb k_min potassium && Py.leb potassium k_max then score + 5
      else score in
    Py.max 0 (Py.min 100 score).

(** [_predict_yield_rules] *)
Definition _predict_yield_rules (crop_data : CropData) (suitability_score : Q)
  : YieldPrediction :=
  let base_yield := default 2000 (cd_base_yield crop_data) in
  let yield_multiplier := suitability_score / 100 in
  let expected := base_yield * yield_multiplier in
  let min_yield := expected * 0.8 in
  let max_yield := expected * 1.2 in
  {| yp_min := Py.round min_yield 2;
     yp_max := Py.round max_yield 2;
     yp_expected := Py.round expected 2;
     yp_unit := "kg/hectare" |}.

(** *** Loading the artifacts *)




End Predictor.

(** ** predictor_v3.py: class CropPredictorV3 *)

Module PredictorV3.

(** The class carries the same three literals as [CropPredictor]. *)
Definition CROP_TEMP_RANGES : gmap string (Z * Z) := Predictor.CROP_TEMP_RANGES.
Definition DEFAULT_SEASON_CROPS : gmap string (list string) :=
  Predictor.DEFAULT_SEASON_CROPS.
Definition default_yields : gmap string Q := Predictor.default_yields.

(** The encoder tables; every one is read with [.get(.., [])], except
    [season_classes], which is tested for presence. *)
Record Encoders := {
  state_classes : list string;
  district_classes : list string;
  season_classes : option (list string);
  crop_classes : list string
}.

(** The attributes [_load_models] sets that [predict] reads. *)
Record Model := {
  use_ml_model : bool;
  model_version : option version;
  classifier : list Q -> option (list Q);
  scaler : list Q -> option (list Q);
  encoders : Encoders;
  season_crop_map : gmap string (list (string * list string));
  crop_profiles : gmap string (gmap string (gmap string Q))
}.

(** What [_load_models] leaves when no classifier file is found. *)
Definition no_model : Model :=
  {| use_ml_model := false;
     model_version := None;
     classifier := fun _ => None;
     scaler := fun _ => None;
     encoders := {| state_classes := []; district_classes := [];
                    season_classes := None; crop_classes := [] |};
     season_crop_map := ∅;
     crop_profiles := ∅ |}.

Record ScoredCrop := {
  crop : string;
  score : Q;
  prob : Q;
  is_season_match : bool;
  temp_suitability : Q
}.

Record Recommendation := {
  cropName : string;
  suitabilityScore : Q;
  yieldPrediction : YieldPrediction;
  explanation : string;
  environmentalFactors : EnvFactors;
  seasonMatch : bool
}.

(** [_get_crops_for_season] *)
Definition _get_crops_for_season (m : Model) (state district season : string)
  : gset string :=
  let season := Py.upper season in
  let historical : option (gset string) :=
    if bool_decide (season_crop_map m = ∅) then None
    else
      let key := Py.upper (state ++ "_" ++ district) in
      match season_crop_map m !! season with
      | Some by_location =>
          match assoc key by_location with
          | Some crops => Some (list_to_set crops)
          | None =>
              match find (fun k => String.prefix (Py.upper state) (fst k))
                         by_location with
              | Some k => Some (list_to_set (snd k))
              | None => None
              end
          end
      | None => None
      end in
  match historical with
  | Some crops => crops
  | None => list_to_set (default [] (DEFAULT_SEASON_CROPS !! season))
  end.

(** [_calculate_temp_suitability] *)
Definition _calculate_temp_suitability (crop : string) (temperature : Q) : Q :=
  match CROP_TEMP_RANGES !! crop with
  | None => 0.7
  | Some (temp_min, temp_max) =>
      let temp_min := inject_Z temp_min in
      let temp_max := inject_Z temp_max in
      let optimal_temp := (temp_min + temp_max) / 2 in
      if Py.leb temp_min temperature && Py.leb temperature temp_max then
        let distance :=
          Qabs (temperature - optimal_temp) / ((temp_max - temp_min) / 2) in
        1.0 - (distance * 0.2)
      else if Py.ltb temperature temp_min then
        let deficit := temp_min - temperature in
        Py.max 0.2 (0.8 - (deficit * 0.05))
      else
        let excess := temperature - temp_max in
        Py.max 0.2 (0.8 - (excess * 0.05))
  end.

(** [_prepare_features] *)
Definition _prepare_features (m : Model) (features : FeatureInput) : list Q :=
  let state := Py.upper (get_str features "state" "") in
  let district := Py.upper (get_str features "district" "") in
  let season := Py.upper (get_str features "season" "KHARIF") in
  let state_encoded :=
    if Py.mem state (state_classes (encoders m))
    then Py.index state (state_classes (encoders m)) else O in
  let district_encoded :=
    if Py.mem district (district_classes (encoders m))
    then Py.index district (district_classes (encoders m)) else O in
  let season_encoded :=
    match season_classes (encoders m) with
    | Some season_classes =>
        if Py.mem season season_classes then Py.index season season_classes else O
    | None => O
    end in
  let zn := get_num features "soil_zn" 60.0 in
  let fe := get_num features "soil_fe" 80.0 in
  let cu := get_num features "soil_cu" 90.0 in
  let mn := get_num features "soil_mn" 85.0 in
  let b := get_num features "soil_b" 70.0 in
  let s := get_num features "soil_s" 75.0 in
  let temperature := get_num features "avg_temperature" 28.0 in
  let humidity := get_num features "avg_humidity" 60.0 in
  let nitrogen := get_num features "soil_nitrogen" 100 in
  let potassium := get_num features "soil_potassium" 150 in
  let phosphorus := get_num features "soil_phosphorus" 20 in
  if bool_decide (model_version m = Some V3) then
    let yield_mean := 2000.0 in
    let total_area := 1000.0 in
    [ qnat state_encoded; qnat district_encoded; qnat season_encoded;
      zn; fe; cu; mn; b; s;
      yield_mean; total_area;
      temperature; humidity; nitrogen; potassium; phosphorus ]
  else
    let yield_mean := 2000.0 in
    let total_area := 1000.0 in
    [ qnat state_encoded; qnat district_encoded; qnat season_encoded;
      zn; fe; cu; mn; b; s;
      yield_mean; total_area;
      temperature - 5; temperature + 5; temperature;
      Py.max 30 (humidity - 15); Py.min 100 (humidity + 15); humidity;
      45.0; nitrogen; potassium; phosphorus ].

(** [_calculate_suitability_score] *)
Definition _calculate_suitability_score (crop : string) (probability : Q)
    (features : FeatureInput) : Q :=
  let base_score := 30.0 in
  let prob_score :=
    if Py.leb 0.2 probability then 50
    else if Py.leb 0.1 probability then 40 + (probability - 0.1) * 100
    else if Py.leb 0.05 probability then 25 + (probability - 0.05) * 300
    else probability * 500 in
  let base_score := base_score + prob_score in
  let temp := get_num features "avg_temperature" 25 in
  let temp_suit := _calculate_temp_suitability crop temp in
  let base_score := base_score + temp_suit * 15 in
  let humidity := get_num features "avg_humidity" 60 in
  let base_score :=
    if Py.leb 50 humidity && Py.leb humidity 75 then base_score + 5
    else if Py.leb 40 humidity && Py.leb humidity 80 then base_score + 3
    else base_score in
  Py.min 100 (Py.max 0 base_score).

(** [_generate_explanation] *)
Definition _generate_explanation (crop : string) (features : FeatureInput)
    (score : Q) (is_season_match : bool) : string :=
  let explanations :=
    [ if Py.leb 85 score then crop ++ " is highly recommended for your conditions."
      else if Py.leb 70 score then crop ++ " is well suited for your location."
      else if Py.leb 55 score then crop ++ " is suitable for your conditions."
      else crop ++ " is moderately suitable." ] in
  let season := get_str features "season" "Kharif" in
  let explanations :=
    if is_season_match
    then app explanations
           ["Historically grown during " ++ season ++ " season in your region."]
    else explanations in
  let temp := get_num features "avg_temperature" 25 in
  let temp_range := default (15, 35)%Z (CROP_TEMP_RANGES !! crop) in
  let explanations :=
    app explanations
    [ if Py.leb (inject_Z (fst temp_range)) temp
         && Py.leb temp (inject_Z (snd temp_range))
      then "Temperature (" ++ Py.fmt_1f temp ++ "°C) is optimal for this crop."
      else if Py.ltb temp (inject_Z (fst temp_range))
      then "Temperature (" ++ Py.fmt_1f temp ++ "°C) is slightly cool; optimal is "
           ++ Py.str_int (fst temp_range) ++ "-" ++ Py.str_int (snd temp_range)
           ++ "°C."
      else "Temperature (" ++ Py.fmt_1f temp ++ "°C) is warm; optimal is "
           ++ Py.str_int (fst temp_range) ++ "-" ++ Py.str_int (snd temp_range)
           ++ "°C." ] in
  String.concat " " explanations.

(** [_predict_yield] *)
Definition _predict_yield (m : Model) (crop : string) (features : FeatureInput)
  : YieldPrediction :=
  let state := Py.upper (get_str features "state" "") in
  let district := Py.upper (get_str features "district" "") in
  let season := Py.upper (get_str features "season" "KHARIF") in
  let key := Py.upper (state ++ "_" ++ district ++ "_" ++ season) in
  match crop_profiles m !! key ≫= (fun by_crop => by_crop !! crop) with
  | Some profile =>
      let yield_mean := default 2000 (profile !! "yield_mean") in
      let yield_std := default 500 (profile !! "yield_std") in
      let temp := get_num features "avg_temperature" 25 in
      let temp_mult := _calculate_temp_suitability crop temp in
      let expected := yield_mean * temp_mult in
      let min_yield := Py.max 100 (expected - yield_std) in
      let max_yield := expected + yield_std in
      {| yp_min := Py.round min_yield 0;
         yp_max := Py.round max_yield 0;
         yp_expected := Py.round expected 0;
         yp_unit := "kg/hectare" |}
  | None =>
      let base_yield := default 2000 (default_yields !! crop) in
      let temp_mult :=
        _calculate_temp_suitability crop (get_num features "avg_temperature" 25) in
      let expected := base_yield * temp_mult in
      {| yp_min := Py.round (expected * 0.7) 0;
         yp_max := Py.round (expected * 1.3) 0;
         yp_expected := Py.round expected 0;
         yp_unit := "kg/hectare" |}
  end.

(** [_calculate_environmental_factors] *)
Definition _calculate_environmental_factors (crop : string)
    (features : FeatureInput) : EnvFactors :=
  let temp := get_num features "avg_temperature" 25 in
  let humidity := get_num features "avg_humidity" 60 in
  let nitrogen := get_num features "soil_nitrogen" 100 in
  let phosphorus := get_num features "soil_phosphorus" 20 in
  let potassium := get_num features "soil_potassium" 150 in
  let soil_score :=
    foldl (fun soil_score nutrient =>
             let val := get_num features nutrient 50 in
             if Py.leb 50 val then soil_score + 25
             else if Py.leb 30 val then soil_score + 15
             else soil_score)
          0 ["soil_zn"; "soil_fe"; "soil_cu"; "soil_mn"] in
  let npk_score := 0 in
  let npk_score :=
    if Py.leb 50 nitrogen && Py.leb nitrogen 200 then npk_score + 35
    else npk_score in
  let npk_score :=
    if Py.leb 10 phosphorus && Py.leb phosphorus 50 then npk_score + 35
    else npk_score in
  let npk_score :=
    if Py.leb 80 potassium && Py.leb potassium 250 then npk_score + 30
    else npk_score in
  let temp_suit := _calculate_temp_suitability crop temp in
  let weather_score := temp_suit * 50 in
  let weather_score :=
    if Py.leb 40 humidity && Py.leb humidity 80 then weather_score + 50
    else if Py.leb 30 humidity && Py.leb humidity 90 then weather_score + 30
    else weather_score in
  {| soilMatch := Py.round (Py.min 100 soil_score) 1;
     npkMatch := Py.round (Py.min 100 npk_score) 1;
     weatherMatch := Py.round (Py.min 100 weather_score) 1;
     historicalYield := 75.0 |}.

(** Ordering of recommendations by the key [x['suitabilityScore']]. *)
Definition rec_lt (a b : Recommendation) : bool :=
  Py.ltb (suitabilityScore a) (suitabilityScore b).

(** Ordering of scored crops by the key
    [(x['is_season_match'], x['score'])]. *)
Definition scored_lt (a b : ScoredCrop) : bool :=
  match is_season_match a, is_season_match b with
  | false, true => true
  | true, false => false
  | _, _ => Py.ltb (score a) (score b)
  end.

(** The season adjustment and the temperature penalty that the scoring
    loop of [predict] applies to a base score. *)
Definition adjust_score (is_season_match : bool) (score temp_suit : Q) : Q :=
  let score :=
    if is_season_match then Py.min 100 (score * 1.3) else score * 0.4 in
  if Py.ltb temp_suit 0.5 then score * 0.7 else score.

(** One round of the scoring loop of [predict]. *)
Definition score_crop (features : FeatureInput) (temperature : Q)
    (season_crops : gset string) (prob : Q) (crop : string) : ScoredCrop :=
  let is_season_match := bool_decide (crop ∈ season_crops) in
  let score := _calculate_suitability_score crop prob features in
  let temp_suit := _calculate_temp_suitability crop temperature in
  let score := adjust_score is_season_match score temp_suit in
  {| crop := crop; score := score; prob := prob;
     is_season_match := is_season_match; temp_suitability := temp_suit |}.

(** The scoring loop of [predict] and the sort that follows it. *)
Definition sorted_scores (features : FeatureInput) (temperature : Q)
    (season_crops : gset string) (probabilities : list Q)
    (crop_classes : list string) : list ScoredCrop :=
  let all_scores :=
    concat
      (imap (fun idx crop =>
               match probabilities !! idx with
               | None => []
               | Some prob =>
                   [score_crop features temperature season_crops prob crop]
               end)
            crop_classes) in
  Py.sort_desc scored_lt all_scores.

(** The loop of [predict] that builds recommendations from the first ten
    scored crops. *)
Definition build_recommendations (m : Model) (features : FeatureInput)
    (all_scores : list ScoredCrop) : list Recommendation :=
  flat_map
    (fun item =>
       let crop := crop item in
       let score := score item in
       let is_season_match := is_season_match item in
       if Py.ltb score 30 then []
       else
         let yield_pred := _predict_yield m crop features in
         let explanation := _generate_explanation crop features score is_season_match in
         let env_factors := _calculate_environmental_factors crop features in
         [ {| cropName := crop;
              suitabilityScore := Py.round score 1;
              yieldPrediction := yield_pred;
              explanation := explanation;
              environmentalFactors := env_factors;
              seasonMatch := is_season_match |} ])
    (take 10 all_scores).

(** The [try] block of [predict]; [None] when it raises. *)
Definition predict_ml_try (m : Model) (features : FeatureInput)
    (temperature : Q) (season_crops : gset string)
  : option (list Recommendation) :=
  let feature_vector := _prepare_features m features in
  scaled_features ← scaler m feature_vector;
  probabilities ← classifier m scaled_features;
  let crop_classes := crop_classes (encoders m) in
  Some (build_recommendations m features
          (sorted_scores features temperature season_crops probabilities
                         crop_classes)).

Section Engine.

(** Iteration order of a set of strings. *)
Variable set_iter : gset string -> list string.

(** [_fallback_predictions] *)
Definition _fallback_predictions (m : Model) (features : FeatureInput)
    (season_crops : gset string) : list Recommendation :=
  let season := Py.upper (get_str features "season" "KHARIF") in
  let temperature := get_num features "avg_temperature" 25 in
  let recommendations :=
    (fun crop =>
       let temp_suit := _calculate_temp_suitability crop temperature in
       let score := 50 + (temp_suit * 40) in
       let yield_pred := _predict_yield m crop features in
       let explanation := _generate_explanation crop features score true in
       let env_factors := _calculate_environmental_factors crop features in
       {| cropName := crop;
          suitabilityScore := Py.round score 1;
          yieldPrediction := yield_pred;
          explanation := explanation;
          environmentalFactors := env_factors;
          seasonMatch := true |})
      <$> set_iter season_crops in
  take 5 (Py.sort_desc rec_lt recommendations).

(** The block of [predict] that tops a short list up from the fallback. *)
Definition supplement (recommendations fallback : list Recommendation)
  : list Recommendation :=
  let existing_crops : gset string := list_to_set (cropName <$> recommendations) in
  foldl (fun recommendations fb =>
           if negb (bool_decide (cropName fb ∈ existing_crops))
           then app recommendations [fb]
           else recommendations)
        recommendations fallback.

(** [predict]: the caller's dictionary after the call, and the returned
    list. *)
Definition predict (m : Model) (features : FeatureInput)
  : FeatureInput * list Recommendation :=
  let state := Py.upper (get_str features "state" "") in
  let district := Py.upper (get_str features "district" "") in
  let season := Py.upper (get_str features "season" "KHARIF") in
  let temperature := get_num features "avg_temperature" 25 in
  let features := set_str features "state" state in
  let features := set_str features "district" district in
  let features := set_str features "season" season in
  let season_crops := _get_crops_for_season m state district season in
  if negb (use_ml_model m) then
    (features, _fallback_predictions m features season_crops)
  else
    match predict_ml_try m features temperature season_crops with
    | None => (features, _fallback_predictions m features season_crops)
    | Some recommendations =>
        let recommendations :=
          if (length recommendations <? 3)%nat then
            let fallback := _fallback_predictions m features season_crops in
            supplement recommendations fallback
          else recommendations in
        let recommendations := Py.sort_desc rec_lt recommendations in
        (features, take 5 recommendations)
    end.

End Engine.

End PredictorV3.

(** ** Properties named in the specification *)




(** ** Inputs used in the examples *)

(** A dictionary literal. *)
Definition feature_dict (text : list (string * string))
    (numbers : list (string * Q)) : FeatureInput :=
  {| strs := list_to_map text; nums := list_to_map numbers |}.

(** A rational stand-in for [np.expm1] (its Taylor polynomial of degree
    three), used where an example needs some function in its place. *)
Definition expm1_poly (x : Q) : Q := x + x * x / 2 + x * x * x / 6.

(** The first input of [test_seasons.py]. *)
Definition ghaziabad_kharif : FeatureInput :=
  feature_dict
    [("state", "Uttar Pradesh"); ("district", "Ghaziabad"); ("season", "Kharif")]
    [("avg_temperature", 30); ("soil_nitrogen", 100)].

(** The scenario input of the specification. *)
Definition ludhiana_rabi : FeatureInput :=
  feature_dict
    [("state", "PUNJAB"); ("district", "LUDHIANA"); ("season", "RABI")]
    [("avg_temperature", 20); ("soil_nitrogen", 120)].

(** A loaded v3 model whose classifier returns the row [probabilities]
    for the classes [classes], with no season map and the crop profiles
    [profiles]. *)
Definition v3_model (classes : list string) (probabilities : list Q)
    (profiles : gmap string (gmap string (gmap string Q))) : Predictor.Model :=
  {| Predictor.use_ml_model := true;
     Predictor.model_version := Some V3;
     Predictor.classifier := fun _ => Some probabilities;
     Predictor.scaler := fun x => Some x;
     Predictor.yield_regressor := fun _ => None;
     Predictor.encoders :=
       {| Predictor.state_classes := ["PUNJAB"];
          Predictor.district_classes := ["LUDHIANA"];
          Predictor.season_classes := Some ["KHARIF"; "RABI"];
          Predictor.crop_classes := Some classes |};
     Predictor.season_crop_map := Some ∅;
     Predictor.crop_profiles := profiles;
     Predictor.district_profiles := ∅ |}.

(** A confident rice prediction in a mild Kharif season. *)
Definition rice_model : Predictor.Model :=
  v3_model ["CEREALS_RICE"; "CEREALS_MAIZE"; "PULSES"; "OILSEEDS"; "COTTON"]
           [0.9; 0.025; 0.025; 0.025; 0.025] ∅.

Definition ludhiana_kharif_mild : FeatureInput :=
  feature_dict
    [("state", "Punjab"); ("district", "Ludhiana"); ("season", "Kharif")]
    [("avg_temperature", 27.5); ("avg_humidity", 60)].



(** A v3 model with one crop profile whose mean yield is low. *)
Definition low_profile_model : Predictor.Model :=
  v3_model ["CEREALS_WHEAT"] [1]
    {[ "PUNJAB_LUDHIANA_RABI" :=
         {[ "CEREALS_WHEAT" :=
              list_to_map [("yield_mean", 50); ("yield_std", 10)] ]} ]}.

Definition low_profile_model_v3 : PredictorV3.Model :=
  {| PredictorV3.use_ml_model := true;
     PredictorV3.model_version := Some V3;
     PredictorV3.classifier := fun _ => Some [1];
     PredictorV3.scaler := fun x => Some x;
     PredictorV3.encoders :=
       {| PredictorV3.state_classes := ["PUNJAB"];
          PredictorV3.district_classes := ["LUDHIANA"];
          PredictorV3.season_classes := Some ["KHARIF"; "RABI"];
          PredictorV3.crop_classes := ["CEREALS_WHEAT"] |};
     PredictorV3.season_crop_map := ∅;
     PredictorV3.crop_profiles := Predictor.crop_profiles low_profile_model |}.

Definition ludhiana_rabi_cool : FeatureInput :=
  feature_dict
    [("state", "PUNJAB"); ("district", "LUDHIANA"); ("season", "RABI")]
    [("avg_temperature", 17.5)].

(** A loaded v2 model whose yield regressor raises on every input. *)
Definition v2_model_broken_regressor : Predictor.Model :=
  {| Predictor.use_ml_model := true;
     Predictor.model_version := Some V2;
     Predictor.classifier := fun _ => Some [0.6; 0.4];
     Predictor.scaler := fun x => Some x;
     Predictor.yield_regressor := fun _ => None;
     Predictor.encoders :=
       {| Predictor.state_classes := ["PUNJAB"];
          Predictor.district_classes := ["LUDHIANA"];
          Predictor.season_classes := Some ["KHARIF"; "RABI"];
          Predictor.crop_classes := Some ["CEREALS_RICE"; "CEREALS_WHEAT"] |};
     Predictor.season_crop_map := None;
     Predictor.crop_profiles := ∅;
     Predictor.district_profiles := ∅ |}.

(** A season table for two Punjab districts, and a v3 model that holds
    it. *)
Definition punjab_season_table : gmap string (list (string * list string)) :=
  <[ "RABI" := [ ("PUNJAB_AMRITSAR", ["CEREALS_WHEAT"; "OILSEEDS"]);
                 ("PUNJAB_LUDHIANA", ["CEREALS_WHEAT"; "PULSES"]) ] ]> ∅.

Definition punjab_table_model : Predictor.Model :=
  {| Predictor.use_ml_model := true;
     Predictor.model_version := Some V3;
     Predictor.classifier := fun _ => Some [0.7; 0.3];
     Predictor.scaler := fun x => Some x;
     Predictor.yield_regressor := fun _ => None;
     Predictor.encoders :=
       {| Predictor.state_classes := ["PUNJAB"];
          Predictor.district_classes := ["AMRITSAR"; "LUDHIANA"];
          Predictor.season_classes := Some ["KHARIF"; "RABI"];
          Predictor.crop_classes := Some ["CEREALS_RICE"; "CEREALS_WHEAT"] |};
     Predictor.season_crop_map := Some punjab_season_table;
     Predictor.crop_profiles := ∅;
     Predictor.district_profiles := ∅ |}.

(** A loaded v2 model with a working regressor and one district history. *)
Definition v2_model_with_history : Predictor.Model :=
  {| Predictor.use_ml_model := true;
     Predictor.model_version := Some V2;
     Predictor.classifier := fun _ => Some [0.6; 0.4];
     Predictor.scaler := fun x => Some x;
     Predictor.yield_regressor := fun _ => Some 1;
     Predictor.encoders :=
       {| Predictor.state_classes := ["PUNJAB"];
          Predictor.district_classes := ["LUDHIANA"];
          Predictor.season_classes := Some ["KHARIF"; "RABI"];
          Predictor.crop_classes := Some ["CEREALS_RICE"; "CEREALS_WHEAT"] |};
     Predictor.season_crop_map := None;
     Predictor.crop_profiles := ∅;
     Predictor.district_profiles :=
       {[ "PUNJAB_LUDHIANA" :=
            {[ "CEREALS_WHEAT" :=
                 list_to_map [("avg_yield", 4); ("min_yield", 3);
                              ("max_yield", 5); ("std_yield", 0.5)] ]} ]} |}.


(** An input whose season is none of the six the classes know. *)
Definition ludhiana_monsoon : FeatureInput :=
  feature_dict
    [("state", "Punjab"); ("district", "Ludhiana"); ("season", "Monsoon")]
    [("avg_temperature", 30)].

(** * Properties *)

(** ** Arithmetic of the Python primitives *)

Lemma ltb_true (a b : Q) : Py.ltb a b = true <-> a < b.
Proof.
  unfold Py.ltb. destruct (Qle_bool b a) eqn:E; simpl.
  - apply Qle_bool_iff in E. split; [discriminate | intros H; exfalso; lra].
  - split; [intros _ | reflexivity].
    destruct (Qlt_le_dec a b) as [H | H]; [exact H |].
    apply Qle_bool_iff in H. congruence.
Qed.

Lemma ltb_false (a b : Q) : Py.ltb a b = false <-> b <= a.
Proof.
  unfold Py.ltb. destruct (Qle_bool b a) eqn:E; simpl.
  - apply Qle_bool_iff in E. split; [intros _; exact E | reflexivity].
  - split; [discriminate |]. intros H. apply Qle_bool_iff in H. congruence.
Qed.

Lemma leb_true (a b : Q) : Py.leb a b = true <-> a <= b.
Proof. apply Qle_bool_iff. Qed.

Lemma leb_false (a b : Q) : Py.leb a b = false <-> b < a.
Proof.
  unfold Py.leb. destruct (Qle_bool a b) eqn:E.
  - apply Qle_bool_iff in E. split; [discriminate | intros H; exfalso; lra].
  - split; [intros _ | reflexivity].
    destruct (Qlt_le_dec b a) as [H | H]; [exact H |].
    apply Qle_bool_iff in H. congruence.
Qed.

(** Split on every comparison in the goal and leave linear facts. *)
Ltac py_split :=
  repeat match goal with
    | |- context [Py.ltb ?a ?b] =>
        let E := fresh "E" in
        destruct (Py.ltb a b) eqn:E;
        [apply ltb_true in E | apply ltb_false in E]
    | |- context [Py.leb ?a ?b] =>
        let E := fresh "E" in
        destruct (Py.leb a b) eqn:E;
        [apply leb_true in E | apply leb_false in E]
    | H : context [Py.ltb ?a ?b] |- _ =>
        let E := fresh "E" in
        destruct (Py.ltb a b) eqn:E;
        [apply ltb_true in E | apply ltb_false in E]
    | H : context [Py.leb ?a ?b] |- _ =>
        let E := fresh "E" in
        destruct (Py.leb a b) eqn:E;
        [apply leb_true in E | apply leb_false in E]
    end.

(** [lra] with every [inject_Z] of a non-literal taken as an unknown. *)
Ltac forget_inject :=
  repeat match goal with
    | |- context [inject_Z ?z] =>
        lazymatch z with
        | Zpos _ => fail | Zneg _ => fail | Z0 => fail
        | _ => let q := fresh "q" in set (q := inject_Z z) in *; clearbody q
        end
    | H : context [inject_Z ?z] |- _ =>
        lazymatch z with
        | Zpos _ => fail | Zneg _ => fail | Z0 => fail
        | _ => let q := fresh "q" in set (q := inject_Z z) in *; clearbody q
        end
    end.

Ltac qlra :=
  forget_inject; unfold Qdiv in *; change (/ 2) with (1 # 2) in *; lra.

Ltac py_arith := unfold Py.max, Py.min; py_split; simpl in *; try qlra.

Lemma max_ge_l (a b : Q) : a <= Py.max a b.
Proof. py_arith. Qed.

Lemma max_ge_r (a b : Q) : b <= Py.max a b.
Proof. py_arith. Qed.

Lemma min_le_l (a b : Q) : Py.min a b <= a.
Proof. py_arith. Qed.

Lemma min_le_r (a b : Q) : Py.min a b <= b.
Proof. py_arith. Qed.

Lemma max_is_Qmax (a b : Q) : Py.max a b == Qmax a b.
Proof.
  unfold Py.max. py_split.
  - symmetry. apply Q.max_r. lra.
  - symmetry. apply Q.max_l. lra.
Qed.

(** ** Rounding *)

Lemma round_half_even_bounds (x : Q) :
  inject_Z (Qfloor x) <= inject_Z (Py.round_half_even x)
  /\ inject_Z (Py.round_half_even x) <= inject_Z (Qfloor x) + 1.
Proof.
  unfold Py.round_half_even.
  destruct (Qcompare _ _); [destruct (Z.even _) | |];
    rewrite ?inject_Z_plus; change (inject_Z 1) with 1; qlra.
Qed.

Lemma round_half_even_mono (x y : Q) :
  x <= y -> (Py.round_half_even x <= Py.round_half_even y)%Z.
Proof.
  intros Hxy.
  pose proof (Qfloor_resp_le _ _ Hxy) as Hf.
  destruct (Z.eq_dec (Qfloor x) (Qfloor y)) as [Heq | Hne].
  - unfold Py.round_half_even. rewrite <- Heq.
    destruct (Qcompare (x - inject_Z (Qfloor x)) (1 # 2)) eqn:Ex;
      destruct (Qcompare (y - inject_Z (Qfloor x)) (1 # 2)) eqn:Ey;
      try destruct (Z.even (Qfloor x)); try lia;
      rewrite <- ?Qeq_alt, <- ?Qlt_alt, <- ?Qgt_alt in *; exfalso; qlra.
  - assert (Qfloor x + 1 <= Qfloor y)%Z as Hstep by lia.
    pose proof (round_half_even_bounds x) as [_ Hx].
    pose proof (round_half_even_bounds y) as [Hy _].
    change 1 with (inject_Z 1) in Hx.
    rewrite <- inject_Z_plus, <- Zle_Qle in Hx.
    rewrite <- Zle_Qle in Hy. lia.
Qed.

Lemma round_half_even_Z (z : Z) : Py.round_half_even (inject_Z z) = z.
Proof.
  unfold Py.round_half_even. rewrite Qfloor_Z.
  destruct (Qcompare _ _) eqn:E; [| reflexivity |];
    rewrite <- ?Qeq_alt, <- ?Qgt_alt in E; exfalso; qlra.
Qed.

Lemma round0_mono (x y : Q) : x <= y -> Py.round x 0 <= Py.round y 0.
Proof.
  intros H. unfold Py.round. rewrite <- Zle_Qle.
  now apply round_half_even_mono.
Qed.


Lemma round1_unfold (x : Q) :
  Py.round x 1 = Qmake (Py.round_half_even (x * 10)) 10.
Proof. reflexivity. Qed.

Lemma round1_ge (z : Z) (x : Q) : inject_Z z <= x -> inject_Z z <= Py.round x 1.
Proof.
  intros H. rewrite round1_unfold.
  assert (z * 10 <= Py.round_half_even (x * 10))%Z as Hz.
  { rewrite <- (round_half_even_Z (z * 10)). apply round_half_even_mono.
    rewrite inject_Z_mult. change (inject_Z 10) with 10. qlra. }
  unfold Qle. simpl. lia.
Qed.

Lemma round1_le (z : Z) (x : Q) : x <= inject_Z z -> Py.round x 1 <= inject_Z z.
Proof.
  intros H. rewrite round1_unfold.
  assert (Py.round_half_even (x * 10) <= z * 10)%Z as Hz.
  { rewrite <- (round_half_even_Z (z * 10)). apply round_half_even_mono.
    rewrite inject_Z_mult. change (inject_Z 10) with 10. qlra. }
  unfold Qle. simpl. lia.
Qed.

Lemma round1_mono (x y : Q) : x <= y -> Py.round x 1 <= Py.round y 1.
Proof.
  intros H. rewrite !round1_unfold.
  assert (Py.round_half_even (x * 10) <= Py.round_half_even (y * 10))%Z as Hz.
  { apply round_half_even_mono. lra. }
  unfold Qle. simpl. lia.
Qed.

(** ** Temperature suitability *)

Lemma temp_range_ordered (crop : string) (lo hi : Z) :
  Predictor.CROP_TEMP_RANGES !! crop = Some (lo, hi) -> (lo < hi)%Z.
Proof.
  unfold Predictor.CROP_TEMP_RANGES. intros H.
  apply elem_of_list_to_map_2 in H.
  repeat (apply elem_of_cons in H as [H | H]; [inversion H; lia |]).
  now apply elem_of_nil in H.
Qed.

(** The relative distance from the midpoint lies in [0,1] inside the
    range. *)
Lemma distance_bounds (mn mx t : Q) :
  mn < mx -> mn <= t <= mx ->
  0 <= Qabs (t - (mn + mx) / 2) / ((mx - mn) / 2) <= 1.
Proof.
  intros Hlt [Hlo Hhi]. split.
  - apply Qle_shift_div_l; [qlra |]. rewrite Qmult_0_l. apply Qabs_nonneg.
  - apply Qle_shift_div_r; [qlra |]. apply Qabs_Qle_condition. split; qlra.
Qed.

Lemma temp_suitability_inside (crop : string) (lo hi : Z) (t : Q) :
  Predictor.CROP_TEMP_RANGES !! crop = Some (lo, hi) ->
  inject_Z lo <= t <= inject_Z hi ->
  Predictor._calculate_temp_suitability crop t
  == 1 - 0.2 * (Qabs (t - (inject_Z lo + inject_Z hi) / 2)
                / ((inject_Z hi - inject_Z lo) / 2)).
Proof.
  intros H [Hlo Hhi]. unfold Predictor._calculate_temp_suitability. rewrite H.
  apply leb_true in Hlo, Hhi. rewrite Hlo, Hhi. simpl andb. cbv iota zeta.
  set (d := Qabs _ / _). lra.
Qed.

Lemma temp_suitability_below (crop : string) (lo hi : Z) (t : Q) :
  Predictor.CROP_TEMP_RANGES !! crop = Some (lo, hi) ->
  t < inject_Z lo ->
  Predictor._calculate_temp_suitability crop t
  = Py.max 0.2 (0.8 - (inject_Z lo - t) * 0.05).
Proof.
  intros H Hlo. unfold Predictor._calculate_temp_suitability. rewrite H.
  pose proof Hlo as Hlo'. apply leb_false in Hlo. apply ltb_true in Hlo'.
  now rewrite Hlo, Hlo'.
Qed.

Lemma temp_suitability_above (crop : string) (lo hi : Z) (t : Q) :
  Predictor.CROP_TEMP_RANGES !! crop = Some (lo, hi) ->
  inject_Z hi < t ->
  Predictor._calculate_temp_suitability crop t
  = Py.max 0.2 (0.8 - (t - inject_Z hi) * 0.05).
Proof.
  intros H Hhi. unfold Predictor._calculate_temp_suitability. rewrite H.
  pose proof (temp_range_ordered _ _ _ H) as Hord. rewrite Zlt_Qlt in Hord.
  assert (inject_Z lo <= t) as Hlo by qlra.
  assert (Py.ltb t (inject_Z lo) = false) as Hlt by (apply ltb_false; exact Hlo).
  apply leb_true in Hlo. apply leb_false in Hhi.
  now rewrite Hlo, Hhi, Hlt.
Qed.

Lemma temp_suitability_unknown (crop : string) (t : Q) :
  Predictor.CROP_TEMP_RANGES !! crop = None ->
  Predictor._calculate_temp_suitability crop t = 0.7.
Proof.
  intros H. unfold Predictor._calculate_temp_suitability. now rewrite H.
Qed.

(** Every suitability lies between the floor 0.2 and 1. *)
Lemma temp_suitability_range (crop : string) (t : Q) :
  0.2 <= Predictor._calculate_temp_suitability crop t <= 1.
Proof.
  destruct (Predictor.CROP_TEMP_RANGES !! crop) as [[lo hi] |] eqn:H.
  - pose proof (temp_range_ordered _ _ _ H) as Hord. rewrite Zlt_Qlt in Hord.
    destruct (Qlt_le_dec t (inject_Z lo)) as [Hlo | Hlo].
    { rewrite (temp_suitability_below _ _ _ _ H Hlo). py_arith. }
    destruct (Qlt_le_dec (inject_Z hi) t) as [Hhi | Hhi].
    { rewrite (temp_suitability_above _ _ _ _ H Hhi). py_arith. }
    rewrite (temp_suitability_inside _ _ _ _ H (conj Hlo Hhi)).
    pose proof (distance_bounds _ _ t Hord (conj Hlo Hhi)) as [H0 H1].
    set (d := Qabs _ / _) in *. lra.
  - rewrite (temp_suitability_unknown _ _ H). lra.
Qed.

Lemma v3_temp_suitability_same (crop : string) (t : Q) :
  PredictorV3._calculate_temp_suitability crop t
  = Predictor._calculate_temp_suitability crop t.
Proof. reflexivity. Qed.

(** C2.  For a category with a temperature range [lo, hi] the suitability
    is [1 - 0.2 * (|t - mid| / half-width)] inside the range (so at least
    0.8, and 1 at the midpoint), [max(0.2, 0.8 - 0.05 * (lo - t))] below it
    and [max(0.2, 0.8 - 0.05 * (t - hi))] above it; for a category that
    is not in the table it is 0.7.  Both predictor classes compute the same
    function. *)
Theorem C2_temp_suitability_piecewise (crop : string) (t : Q) :
  let s := Predictor._calculate_temp_suitability crop t in
  match Predictor.CROP_TEMP_RANGES !! crop with
  | Some (lo, hi) =>
      let mn := inject_Z lo in
      let mx := inject_Z hi in
      let mid := (mn + mx) / 2 in
      let half_width := (mx - mn) / 2 in
      (mn <= t <= mx ->
         s == 1 - 0.2 * (Qabs (t - mid) / half_width)
         /\ 0.8 <= s /\ (t == mid -> s == 1))
      /\ (t < mn -> s == Qmax 0.2 (0.8 - 0.05 * (mn - t)))
      /\ (mx < t -> s == Qmax 0.2 (0.8 - 0.05 * (t - mx)))
  | None => s == 0.7
  end
  /\ PredictorV3._calculate_temp_suitability crop t = s.
Proof.
  intros s. split; [| apply v3_temp_suitability_same].
  destruct (Predictor.CROP_TEMP_RANGES !! crop) as [[lo hi] |] eqn:H.
  - intros mn mx mid half_width.
    pose proof (temp_range_ordered _ _ _ H) as Hord. rewrite Zlt_Qlt in Hord.
    fold mn mx in Hord. repeat split.
    + subst s. now rewrite (temp_suitability_inside _ _ _ _ H).
    + subst s. rewrite (temp_suitability_inside _ _ _ _ H) by assumption.
      pose proof (distance_bounds mn mx t Hord H0) as [_ H1].
      fold mid half_width in H1 |- *. set (d := Qabs _ / _) in *. lra.
    + intros Hmid. subst s.
      rewrite (temp_suitability_inside _ _ _ _ H) by assumption.
      fold mn mx mid half_width.
      assert (Qabs (t - mid) == 0) as ->.
      { assert (t - mid == 0) as -> by lra. reflexivity. }
      unfold Qdiv. rewrite Qmult_0_l. lra.
    + intros Hlo. subst s. rewrite (temp_suitability_below _ _ _ _ H Hlo).
      rewrite max_is_Qmax. fold mn.
      assert ((mn - t) * 0.05 == 0.05 * (mn - t)) as -> by ring. reflexivity.
    + intros Hhi. subst s. rewrite (temp_suitability_above _ _ _ _ H Hhi).
      rewrite max_is_Qmax. fold mx.
      assert ((t - mx) * 0.05 == 0.05 * (t - mx)) as -> by ring. reflexivity.
  - subst s. now rewrite (temp_suitability_unknown _ _ H).
Qed.

(** ** The stable descending sort *)

Section SortFacts.
Context {A : Type} (lt : A -> A -> bool).

Lemma insert_desc_perm (x : A) (l : list A) : Py.insert_desc lt x l ≡ₚ x :: l.
Proof.
  induction l as [| y l IH]; simpl; [reflexivity |].
  destruct (lt x y); [| reflexivity].
  rewrite IH. apply Permutation_swap.
Qed.

Lemma sort_desc_perm (l : list A) : Py.sort_desc lt l ≡ₚ l.
Proof.
  induction l as [| x l IH]; simpl; [reflexivity |].
  rewrite insert_desc_perm. now rewrite IH.
Qed.

Lemma sort_desc_length (l : list A) : length (Py.sort_desc lt l) = length l.
Proof. apply Permutation_length, sort_desc_perm. Qed.

Local Abbreviation ge := (Py.ge lt).
Local Abbreviation same_key := (Py.same_key lt).

Hypothesis lt_asym : forall x y, lt x y = true -> lt y x = false.
Hypothesis ge_trans : forall x y z, ge x y -> ge y z -> ge x z.

Lemma insert_desc_sorted (x : A) (l : list A) :
  StronglySorted ge l -> StronglySorted ge (Py.insert_desc lt x l).
Proof.
  induction 1 as [| y l Hs IH Hy]; simpl.
  - repeat constructor.
  - destruct (lt x y) eqn:E.
    + constructor; [exact IH |].
      rewrite insert_desc_perm. constructor; [now apply lt_asym | exact Hy].
    + constructor; [now constructor |].
      constructor; [exact E |].
      eapply Forall_impl; [exact Hy |]. intros z Hz. now apply (ge_trans x y z).
Qed.

Lemma sort_desc_sorted (l : list A) : StronglySorted ge (Py.sort_desc lt l).
Proof.
  induction l as [| x l IH]; simpl; [constructor |].
  now apply insert_desc_sorted.
Qed.

Hypothesis same_key_not_lt :
  forall a x y, same_key a x = true -> same_key a y = true -> lt x y = false.



End SortFacts.

Lemma rec_lt_asym (x y : Predictor.Recommendation) :
  Predictor.rec_lt x y = true -> Predictor.rec_lt y x = false.
Proof.
  unfold Predictor.rec_lt. rewrite ltb_true, ltb_false. lra.
Qed.

Lemma rec_ge_trans (x y z : Predictor.Recommendation) :
  Py.ge Predictor.rec_lt x y -> Py.ge Predictor.rec_lt y z -> Py.ge Predictor.rec_lt x z.
Proof.
  unfold Py.ge, Predictor.rec_lt. rewrite !ltb_false. lra.
Qed.




Lemma v3_rec_same_key_not_lt (a x y : PredictorV3.Recommendation) :
  Py.same_key PredictorV3.rec_lt a x = true ->
  Py.same_key PredictorV3.rec_lt a y = true ->
  PredictorV3.rec_lt x y = false.
Proof.
  unfold Py.same_key, PredictorV3.rec_lt.
  rewrite !andb_true_iff, !negb_true_iff, !ltb_false. lra.
Qed.





(** ** Upper-casing and the caller's dictionary *)

Lemma upper_ascii_idem (c : ascii) :
  Py.upper_ascii (Py.upper_ascii c) = Py.upper_ascii c.
Proof. destruct c as [[] [] [] [] [] [] [] []]; reflexivity. Qed.

Lemma upper_idem (s : string) : Py.upper (Py.upper s) = Py.upper s.
Proof.
  induction s as [| c s IH]; simpl; [reflexivity |].
  now rewrite upper_ascii_idem, IH.
Qed.

(** The three assignments [predict] makes to the caller's dictionary. *)
Lemma predict_dictionary set_iter expm1 (m : Predictor.Model) (f : FeatureInput) :
  fst (Predictor.predict set_iter expm1 m f)
  = set_str
      (set_str
         (set_str f "state" (Py.upper (get_str f "state" "")))
         "district" (Py.upper (get_str f "district" "")))
      "season" (Py.upper (get_str f "season" "KHARIF")).
Proof. reflexivity. Qed.

Lemma v3_predict_dictionary set_iter (m : PredictorV3.Model) (f : FeatureInput) :
  fst (PredictorV3.predict set_iter m f)
  = set_str
      (set_str
         (set_str f "state" (Py.upper (get_str f "state" "")))
         "district" (Py.upper (get_str f "district" "")))
      "season" (Py.upper (get_str f "season" "KHARIF")).
Proof.
  unfold PredictorV3.predict. cbv zeta.
  destruct (negb _); [reflexivity |].
  destruct (PredictorV3.predict_ml_try _ _ _ _); reflexivity.
Qed.

Lemma normalised_strs (f : FeatureInput) (k : string) :
  k <> "state" -> k <> "district" -> k <> "season" ->
  strs (set_str
          (set_str
             (set_str f "state" (Py.upper (get_str f "state" "")))
             "district" (Py.upper (get_str f "district" "")))
          "season" (Py.upper (get_str f "season" "KHARIF")))
    !! k
  = strs f !! k.
Proof.
  intros H1 H2 H3. simpl. now rewrite !lookup_insert_ne by congruence.
Qed.



(** C6 (as stated): [predict] leaves the caller's dictionary unchanged.
    On the first input of [test_seasons.py] the value under ['state']
    is ["Uttar Pradesh"] before the call and ["UTTAR PRADESH"] after
    it. *)
Lemma C6_caller_dictionary_changed :
  strs ghaziabad_kharif !! "state" = Some "Uttar Pradesh"
  /\ strs (fst (Predictor.predict elements expm1_poly Predictor.no_model
                  ghaziabad_kharif)) !! "state"
     = Some "UTTAR PRADESH"
  /\ fst (Predictor.predict elements expm1_poly Predictor.no_model
            ghaziabad_kharif)
     <> ghaziabad_kharif.
Proof.
  split; [reflexivity |]. split; [reflexivity |].
  intros H. apply (f_equal (fun f => strs f !! "state")) in H.
  vm_compute in H. discriminate.
Qed.

(** C6 (amended).  [predict] stores the upper-cased state, district and
    season (with the defaults [''], [''] and ['KHARIF'] for a missing key)
    under the keys ['state'], ['district'] and ['season'] of the caller's
    dictionary; every other key keeps its value, and both predictor
    classes leave the same dictionary. *)
Theorem C6_predict_rewrites_only_location_keys
    (set_iter : gset string -> list string) (expm1 : Q -> Q)
    (m : Predictor.Model) (m3 : PredictorV3.Model) (f : FeatureInput) :
  let g := fst (Predictor.predict set_iter expm1 m f) in
  fst (PredictorV3.predict set_iter m3 f) = g
  /\ nums g = nums f
  /\ strs g !! "state" = Some (Py.upper (get_str f "state" ""))
  /\ strs g !! "district" = Some (Py.upper (get_str f "district" ""))
  /\ strs g !! "season" = Some (Py.upper (get_str f "season" "KHARIF"))
  /\ forall k, k <> "state" -> k <> "district" -> k <> "season" ->
               strs g !! k = strs f !! k.
Proof.
  intros g. subst g. rewrite predict_dictionary, v3_predict_dictionary.
  repeat split.
  - simpl. rewrite lookup_insert_ne by discriminate.
    rewrite lookup_insert_ne by discriminate. apply lookup_insert_eq.
  - simpl. rewrite lookup_insert_ne by discriminate. apply lookup_insert_eq.
  - simpl. apply lookup_insert_eq.
  - intros k. apply normalised_strs.
Qed.

(** ** Scores *)

Lemma ml_score_range (m : Predictor.Model) (i : nat) (probabilities : list Q)
    (f : FeatureInput) :
  0 <= Predictor._calculate_suitability_score_ml m i probabilities f <= 100.
Proof.
  unfold Predictor._calculate_suitability_score_ml. cbv zeta.
  match goal with |- _ <= Py.min 100 (Py.max 0 ?x) <= _ => generalize x end.
  intros x. py_arith.
Qed.

Lemma adjust_score_strict (base ts : Q) :
  0 <= base <= 100 -> 0.2 <= ts ->
  Predictor.adjust_score false base ts < Predictor.adjust_score true base ts.
Proof.
  intros Hb Ht. unfold Predictor.adjust_score. py_arith.
Qed.

Lemma v3_score_positive (crop : string) (prob : Q) (f : FeatureInput) :
  0 <= prob ->
  0 < PredictorV3._calculate_suitability_score crop prob f <= 100.
Proof.
  intros Hp. unfold PredictorV3._calculate_suitability_score. cbv zeta.
  rewrite v3_temp_suitability_same.
  pose proof (temp_suitability_range crop (get_num f "avg_temperature" 25)) as Hts.
  set (ts := Predictor._calculate_temp_suitability _ _) in *.
  py_arith.
Qed.

Lemma v3_adjust_score_strict (base ts : Q) :
  0 < base <= 100 ->
  PredictorV3.adjust_score false base ts < PredictorV3.adjust_score true base ts.
Proof.
  intros Hb. unfold PredictorV3.adjust_score. py_arith.
Qed.

(** C5.  For one candidate crop, with the model probability, the
    temperature and every other input fixed, the score the scoring loop
    gives it when it is not among the season's crops is strictly below the
    score it gets when it is; in both predictor classes. *)
Theorem C5_season_mismatch_scores_lower
    (m : Predictor.Model) (features : FeatureInput) (temperature : Q)
    (probabilities : list Q) (idx : nat) (prob : Q) (crop : string)
    (other_season this_season : gset string)
    (Hout : crop ∉ other_season) (Hin : crop ∈ this_season)
    (Hprob : 0 <= prob) :
  Predictor.score
    (Predictor.score_crop m features temperature other_season probabilities
                          idx crop)
  < Predictor.score
      (Predictor.score_crop m features temperature this_season probabilities
                            idx crop)
  /\ PredictorV3.score
       (PredictorV3.score_crop features temperature other_season prob crop)
     < PredictorV3.score
         (PredictorV3.score_crop features temperature this_season prob crop).
Proof.
  unfold Predictor.score_crop, PredictorV3.score_crop. simpl.
  rewrite !(bool_decide_eq_false_2 _ Hout), !(bool_decide_eq_true_2 _ Hin).
  split.
  - apply adjust_score_strict; [apply ml_score_range |].
    apply temp_suitability_range.
  - apply v3_adjust_score_strict. now apply v3_score_positive.
Qed.

Lemma C5_witness :
  Predictor.score
    (Predictor.score_crop rice_model ludhiana_kharif_mild 27.5
       (list_to_set ["CEREALS_WHEAT"]) [0.9] 0 "CEREALS_RICE")
  < Predictor.score
      (Predictor.score_crop rice_model ludhiana_kharif_mild 27.5
         (list_to_set ["CEREALS_RICE"]) [0.9] 0 "CEREALS_RICE")
  /\ PredictorV3.score
       (PredictorV3.score_crop ludhiana_kharif_mild 27.5
          (list_to_set ["CEREALS_WHEAT"]) 0.9 "CEREALS_RICE")
     < PredictorV3.score
         (PredictorV3.score_crop ludhiana_kharif_mild 27.5
            (list_to_set ["CEREALS_RICE"]) 0.9 "CEREALS_RICE").
Proof.
  apply (C5_season_mismatch_scores_lower rice_model ludhiana_kharif_mild 27.5
           [0.9] 0 0.9 "CEREALS_RICE"
           (list_to_set ["CEREALS_WHEAT"]) (list_to_set ["CEREALS_RICE"])).
  - compute_done.
  - compute_done.
  - vm_compute. discriminate.
Defined.

(** ** Yield estimates *)












(** The [try] block raises exactly when the model is not a v3 model and
    the scaler or the regressor raises. *)
Lemma yield_try_raises_v1 expm1 (m : Predictor.Model) (fv : list Q)
    (crop : string) (f : FeatureInput) :
  Predictor.model_version m <> Some V2 ->
  Predictor.model_version m <> Some V3 ->
  (Predictor._predict_yield_ml_try expm1 m fv crop f = None
   <-> Predictor.scaler m fv ≫= Predictor.yield_regressor m = None).
Proof.
  intros H2 H3. unfold Predictor._predict_yield_ml_try. cbv zeta.
  destruct (Predictor.model_version m) as [[] |]; try congruence;
    destruct (_ ≫= _); try tauto;
    destruct (match Predictor._get_district_historical_data _ _ _ _ with
              | Some _ => _ | None => _ end) as [[e mn] mx];
    split; discriminate.
Qed.

Lemma yield_try_total_v3 expm1 (m : Predictor.Model) (fv : list Q)
    (crop : string) (f : FeatureInput) :
  Predictor.model_version m = Some V3 ->
  Predictor._predict_yield_ml_try expm1 m fv crop f <> None.
Proof.
  intros H3. unfold Predictor._predict_yield_ml_try. cbv zeta. rewrite H3.
  destruct (_ ≫= _); discriminate.
Qed.

(** ** Lists of named records *)

Section Named.
Context {B : Type} (name : B -> string).




Lemma foldl_append_Forall (P : B -> Prop) (step : list B -> B -> list B)
    (extra acc : list B) :
  (forall acc r, step acc r = acc \/ step acc r = acc ++ [r])%list ->
  Forall P acc -> Forall P extra -> Forall P (foldl step acc extra).
Proof.
  intros Hstep. revert acc.
  induction extra as [| r extra IH]; intros acc Hacc Hextra; simpl;
    [exact Hacc |].
  apply Forall_cons in Hextra as [Hr Hextra].
  destruct (Hstep acc r) as [-> | ->]; apply IH; try assumption.
  apply Forall_app. split; [exact Hacc | now constructor].
Qed.

End Named.

Lemma Forall_sort_desc {A : Type} (lt : A -> A -> bool) (P : A -> Prop)
    (l : list A) :
  Forall P l -> Forall P (Py.sort_desc lt l).
Proof. intros H. now rewrite sort_desc_perm. Qed.



(** ** Crop names in the output *)

Section Distinct.
Variable set_iter : gset string -> list string.
Variable expm1 : Q -> Q.
Hypothesis set_iter_perm : forall X, set_iter X ≡ₚ elements X.












End Distinct.


(** ** The range of the scores *)

Lemma Forall_concat_imap {A B : Type} (P : B -> Prop)
    (h : nat -> A -> list B) (l : list A) :
  (forall i c, Forall P (h i c)) -> Forall P (concat (imap h l)).
Proof.
  revert h. induction l as [| c l IH]; intros h Hh; simpl; [constructor |].
  apply Forall_app. split; [apply Hh |]. apply IH. intros i c'. apply Hh.
Qed.

Lemma adjust_score_range (b : bool) (base ts : Q) :
  0 <= base <= 100 -> 0.2 <= ts <= 1 ->
  0 <= Predictor.adjust_score b base ts <= 110.
Proof.
  intros Hb Ht. unfold Predictor.adjust_score. destruct b; py_arith.
Qed.

Lemma v3_score_range (crop : string) (prob : Q) (f : FeatureInput) :
  0 <= PredictorV3._calculate_suitability_score crop prob f <= 100.
Proof.
  unfold PredictorV3._calculate_suitability_score. cbv zeta.
  match goal with |- _ <= Py.min 100 (Py.max 0 ?x) <= _ => generalize x end.
  intros x. py_arith.
Qed.

Lemma v3_adjust_score_range (b : bool) (base ts : Q) :
  0 <= base <= 100 -> 0 <= PredictorV3.adjust_score b base ts <= 100.
Proof.
  intros Hb. unfold PredictorV3.adjust_score. destruct b; py_arith.
Qed.

Lemma rules_scores_range set_iter (f : FeatureInput)
    (season_crops : option (gset string)) :
  Forall (fun r => 58 <= Predictor.suitabilityScore r <= 90)
         (Predictor._predict_with_rules set_iter f season_crops).
Proof.
  unfold Predictor._predict_with_rules. cbv zeta.
  apply Forall_sort_desc, Forall_flat_map, Forall_forall. intros crop _.
  pose proof (temp_suitability_range crop (get_num f "avg_temperature" 25))
    as Hts.
  set (ts := Predictor._calculate_temp_suitability crop _) in *.
  destruct (Py.ltb (50 + ts * 40) 30); [constructor |].
  constructor; [| constructor]. cbn [Predictor.suitabilityScore]. split.
  - apply (round1_ge 58). change (inject_Z 58) with 58. lra.
  - apply (round1_le 90). change (inject_Z 90) with 90. lra.
Qed.

Lemma ml_scores_range expm1 (m : Predictor.Model) (f : FeatureInput)
    (state district : string) (t : Q) (X : gset string)
    (recs : list Predictor.Recommendation) :
  Predictor.predict_ml_try expm1 m f state district t X = Some recs ->
  Forall (fun r => 30 <= Predictor.suitabilityScore r <= 110) recs.
Proof.
  unfold Predictor.predict_ml_try. cbv zeta. intros E.
  destruct (Predictor.scaler m _) as [scaled |]; simpl in E; [| discriminate].
  destruct (Predictor.classifier m scaled) as [probabilities |]; simpl in E;
    [| discriminate].
  destruct (Predictor.crop_classes (Predictor.encoders m)) as [classes |];
    simpl in E; [| discriminate].
  injection E as <-.
  unfold Predictor.build_recommendations.
  apply Forall_flat_map, Forall_take.
  unfold Predictor.sorted_scores. cbv zeta.
  apply Forall_sort_desc, Forall_concat_imap. intros i c.
  destruct (_ <=? _)%nat; [constructor |].
  constructor; [| constructor].
  unfold Predictor.score_crop. cbv zeta. cbn [Predictor.score Predictor.crop_name
    Predictor.is_season_match Predictor.temp_suitability].
  pose proof (adjust_score_range (bool_decide (c ∈ X)) _ _
                (ml_score_range m i probabilities f)
                (temp_suitability_range c t)) as [_ Hhi].
  set (s := Predictor.adjust_score _ _ _) in *.
  destruct (Py.ltb s 30) eqn:Elt; [constructor |].
  apply ltb_false in Elt.
  constructor; [| constructor]. cbn [Predictor.suitabilityScore]. split.
  - apply (round1_ge 30). change (inject_Z 30) with 30. lra.
  - apply (round1_le 110). change (inject_Z 110) with 110. lra.
Qed.

(** Every score [predict] returns lies between 30 and 110. *)
Lemma predict_scores_range set_iter expm1 (m : Predictor.Model)
    (f : FeatureInput) :
  Forall (fun r => 30 <= Predictor.suitabilityScore r <= 110)
         (snd (Predictor.predict set_iter expm1 m f)).
Proof.
  assert (forall g X,
             Forall (fun r => 30 <= Predictor.suitabilityScore r <= 110)
                    (Predictor._predict_with_rules set_iter g X)) as Hrules.
  { intros g X. eapply Forall_impl; [apply rules_scores_range |].
    intros r [Hlo Hhi]. cbv beta. lra. }
  unfold Predictor.predict, Predictor.predict_candidates. cbv zeta.
  apply Forall_take, Forall_sort_desc.
  match goal with
  | |- Forall _ (if (length ?l0 <? 5)%nat then _ else _) =>
      assert (Forall (fun r => 30 <= Predictor.suitabilityScore r <= 110) l0)
        as Hrecs
  end.
  { destruct (Predictor.use_ml_model m); [| apply Hrules].
    destruct (Predictor.predict_ml_try _ _ _ _ _ _ _) as [recs |] eqn:E;
      [| apply Hrules].
    eapply ml_scores_range, E. }
  destruct (_ <? 5)%nat; [| exact Hrecs].
  unfold Predictor.supplement. cbv zeta.
  apply foldl_append_Forall; [| exact Hrecs | apply Hrules].
  intros acc r. destruct (negb _ && _); [now right | now left].
Qed.

Lemma v3_fallback_scores_range set_iter (m : PredictorV3.Model)
    (f : FeatureInput) (X : gset string) :
  Forall (fun r => 30 <= PredictorV3.suitabilityScore r <= 100)
         (PredictorV3._fallback_predictions set_iter m f X).
Proof.
  unfold PredictorV3._fallback_predictions. cbv zeta.
  apply Forall_take, Forall_sort_desc, Forall_fmap, Forall_forall.
  intros crop _. cbn [compose PredictorV3.suitabilityScore].
  rewrite v3_temp_suitability_same.
  pose proof (temp_suitability_range crop (get_num f "avg_temperature" 25))
    as Hts.
  set (ts := Predictor._calculate_temp_suitability crop _) in *. split.
  - apply (round1_ge 30). change (inject_Z 30) with 30. lra.
  - apply (round1_le 100). change (inject_Z 100) with 100. lra.
Qed.

(** Every score the v3 class returns lies between 30 and 100: there the
    cap at 100 is the last step that can raise a score. *)
Lemma v3_predict_scores_range set_iter (m : PredictorV3.Model)
    (f : FeatureInput) :
  Forall (fun r => 30 <= PredictorV3.suitabilityScore r <= 100)
         (snd (PredictorV3.predict set_iter m f)).
Proof.
  unfold PredictorV3.predict. cbv zeta.
  destruct (negb _); [apply v3_fallback_scores_range |].
  destruct (PredictorV3.predict_ml_try _ _ _ _) as [recs |] eqn:E;
    [| apply v3_fallback_scores_range].
  cbn [snd]. apply Forall_take, Forall_sort_desc.
  assert (Forall (fun r => 30 <= PredictorV3.suitabilityScore r <= 100) recs)
    as Hrecs.
  { unfold PredictorV3.predict_ml_try in E. cbv zeta in E.
    destruct (PredictorV3.scaler m _) as [scaled |]; simpl in E;
      [| discriminate].
    destruct (PredictorV3.classifier m scaled) as [probabilities |];
      simpl in E; [| discriminate].
    injection E as <-.
    unfold PredictorV3.build_recommendations.
    apply Forall_flat_map, Forall_take.
    unfold PredictorV3.sorted_scores. cbv zeta.
    apply Forall_sort_desc, Forall_concat_imap. intros i c.
    destruct (probabilities !! i) as [prob |]; [| constructor].
    constructor; [| constructor].
    unfold PredictorV3.score_crop. cbv zeta.
    cbn [PredictorV3.score PredictorV3.crop PredictorV3.is_season_match].
    match goal with
    | |- context [PredictorV3.adjust_score ?b ?base ?ts] =>
        pose proof (v3_adjust_score_range b base ts (v3_score_range _ _ _))
          as [_ Hhi];
        set (s := PredictorV3.adjust_score b base ts) in *
    end.
    destruct (Py.ltb s 30) eqn:Elt; [constructor |].
    apply ltb_false in Elt.
    constructor; [| constructor]. cbn [PredictorV3.suitabilityScore]. split.
    - apply (round1_ge 30). change (inject_Z 30) with 30. lra.
    - apply (round1_le 100). change (inject_Z 100) with 100. lra. }
  destruct (_ <? 3)%nat; [| exact Hrecs].
  unfold PredictorV3.supplement. cbv zeta.
  apply foldl_append_Forall;
    [| exact Hrecs | apply v3_fallback_scores_range].
  intros acc r. destruct (negb _); [now right | now left].
Qed.

(** ** The length of the output *)

Lemma predict_length set_iter expm1 (m : Predictor.Model) (f : FeatureInput) :
  (length (snd (Predictor.predict set_iter expm1 m f)) <= 5)%nat.
Proof.
  unfold Predictor.predict.
  destruct (Predictor.predict_candidates set_iter expm1 m f) as [g recs].
  simpl. rewrite length_take. lia.
Qed.

Lemma v3_predict_length set_iter (m : PredictorV3.Model) (f : FeatureInput) :
  (length (snd (PredictorV3.predict set_iter m f)) <= 5)%nat.
Proof.
  unfold PredictorV3.predict, PredictorV3._fallback_predictions. cbv zeta.
  destruct (negb _); [simpl; rewrite length_take; lia |].
  destruct (PredictorV3.predict_ml_try _ _ _ _); simpl; rewrite length_take; lia.
Qed.

(** C1.  On a v3 model that gives rice the probability 0.9, in a Kharif
    season at 27.5 degrees and 60 per cent humidity, [predict] returns five
    entries of which the first, CEREALS_RICE, has the suitability score
    110: the score is capped at 100 before the temperature points are
    added, and not after.  The result does not depend on the order in
    which sets are visited. *)
Theorem C1_score_above_100
    (set_iter : gset string -> list string) (expm1 : Q -> Q) :
  let out := snd (Predictor.predict set_iter expm1 rice_model
                    ludhiana_kharif_mild) in
  Predictor.cropName <$> out
  = ["CEREALS_RICE"; "OILSEEDS"; "COTTON"; "CEREALS_MAIZE"; "PULSES"]
  /\ Predictor.suitabilityScore <$> out = [110.0; 85.0; 84.9; 84.3; 83.7]
  /\ ~ Forall (fun r => 0 <= Predictor.suitabilityScore r <= 100) out.
Proof.
  intros out.
  assert (Predictor.suitabilityScore <$> out = [110.0; 85.0; 84.9; 84.3; 83.7])
    as Hs by (vm_compute; reflexivity).
  split; [vm_compute; reflexivity |]. split; [exact Hs |].
  intros H. apply (Forall_fmap _ (fun s => 0 <= s <= 100)) in H.
  rewrite Hs in H. apply Forall_cons in H as [[_ H] _].
  vm_compute in H. now apply H.
Qed.

(** ** The order of the output *)

Lemma StronglySorted_impl {A : Type} (R R' : A -> A -> Prop) (l : list A) :
  (forall a b, R a b -> R' a b) -> StronglySorted R l -> StronglySorted R' l.
Proof.
  intros HR. induction 1 as [| x l Hs IH Hx]; constructor; [exact IH |].
  eapply Forall_impl; [exact Hx |]. intros b. apply HR.
Qed.



(** ** The rule-based path *)

Lemma sort_desc_sorted_id {A : Type} (lt : A -> A -> bool) (l : list A) :
  StronglySorted (Py.ge lt) l -> Py.sort_desc lt l = l.
Proof.
  induction 1 as [| x l Hs IH Hx]; [reflexivity |].
  cbn [Py.sort_desc foldr]. fold (Py.sort_desc lt l). rewrite IH.
  destruct l as [| y l]; [reflexivity |].
  apply Forall_cons in Hx as [Hxy _]. simpl. now rewrite Hxy.
Qed.

Lemma supplement_no_new (recs extra : list Predictor.Recommendation) :
  (forall r, r ∈ extra -> Predictor.cropName r ∈ Predictor.cropName <$> recs) ->
  Predictor.supplement recs extra = recs.
Proof.
  intros H. unfold Predictor.supplement. cbv zeta.
  set (existing := list_to_set (Predictor.cropName <$> recs) : gset string).
  assert (forall r, r ∈ extra -> Predictor.cropName r ∈ existing) as Hin.
  { intros r Hr. apply elem_of_list_to_set. auto. }
  clearbody existing. clear H. revert Hin.
  generalize recs. induction extra as [| r extra IH]; intros acc Hin;
    [reflexivity |].
  simpl. rewrite bool_decide_eq_true_2 by (apply Hin; now left). simpl.
  apply IH. intros r' Hr'. apply Hin. now right.
Qed.

(** Without a model, [predict] returns the first five rule-based
    recommendations. *)
Lemma predict_rule_based set_iter expm1 (m : Predictor.Model) (f : FeatureInput) :
  Predictor.use_ml_model m = false ->
  let state := Py.upper (get_str f "state" "") in
  let district := Py.upper (get_str f "district" "") in
  let season := Py.upper (get_str f "season" "KHARIF") in
  snd (Predictor.predict set_iter expm1 m f)
  = take 5
      (Predictor._predict_with_rules set_iter
         (fst (Predictor.predict set_iter expm1 m f))
         (Some (Predictor._get_crops_for_season m state district season))).
Proof.
  intros Hm state district season. rewrite predict_dictionary.
  unfold Predictor.predict, Predictor.predict_candidates. cbv zeta.
  rewrite Hm. fold state district season.
  set (g := set_str _ "season" season).
  set (crops := Predictor._get_crops_for_season m state district season).
  set (rules := Predictor._predict_with_rules set_iter g (Some crops)).
  assert (Py.sort_desc Predictor.rec_lt rules = rules) as Hid.
  { apply sort_desc_sorted_id. subst rules. unfold Predictor._predict_with_rules.
    cbv zeta. apply (sort_desc_sorted _ rec_lt_asym rec_ge_trans). }
  destruct (_ <? 5)%nat; simpl; [| now rewrite Hid].
  rewrite supplement_no_new; [now rewrite Hid |].
  intros r Hr. now apply list_elem_of_fmap_2.
Qed.

Lemma rules_perm set_iter (f : FeatureInput) (X : gset string) :
  (forall X, set_iter X ≡ₚ elements X) ->
  Predictor._predict_with_rules set_iter f (Some X)
  ≡ₚ Predictor._predict_with_rules elements f (Some X).
Proof.
  intros Hperm. unfold Predictor._predict_with_rules. cbv zeta.
  rewrite !sort_desc_perm. apply Permutation_flat_map, Hperm.
Qed.

(** Every rule-based recommendation is a crop of the season, marked as a
    season match, with the score [round(50 + 40 * suitability, 1)], which
    lies between 58 and 90. *)
Lemma rules_entries set_iter (f : FeatureInput) (X : gset string) :
  (forall X, set_iter X ≡ₚ elements X) ->
  Forall (fun r =>
            Predictor.cropName r ∈ X
            /\ Predictor.seasonMatch r = true
            /\ Predictor.suitabilityScore r
               = Py.round
                   (50 + Predictor._calculate_temp_suitability
                           (Predictor.cropName r)
                           (get_num f "avg_temperature" 25) * 40) 1
            /\ 58 <= Predictor.suitabilityScore r <= 90)
         (Predictor._predict_with_rules set_iter f (Some X)).
Proof.
  intros Hperm. unfold Predictor._predict_with_rules. cbv zeta.
  apply Forall_sort_desc, Forall_flat_map, Forall_forall. intros crop Hcrop.
  rewrite Hperm in Hcrop. apply elem_of_elements in Hcrop.
  pose proof (temp_suitability_range crop (get_num f "avg_temperature" 25))
    as Hts.
  set (ts := Predictor._calculate_temp_suitability crop _) in *.
  destruct (Py.ltb (50 + ts * 40) 30) eqn:Elt.
  { apply ltb_true in Elt. exfalso. lra. }
  constructor; [| constructor]. simpl. repeat split.
  - exact Hcrop.
  - apply (round1_ge 58). change (inject_Z 58) with 58. lra.
  - apply (round1_le 90). change (inject_Z 90) with 90. lra.
Qed.

Lemma flat_map_one_each {A B : Type} (name : B -> A) (g : A -> list B)
    (l : list A) :
  (forall c, exists r, g c = [r] /\ name r = c) ->
  name <$> flat_map g l = l /\ length (flat_map g l) = length l.
Proof.
  intros Hg. induction l as [| c l [IHn IHl]]; [split; reflexivity |].
  destruct (Hg c) as (r & Hr & Hname).
  cbn [flat_map]. rewrite Hr. cbn [app fmap list_fmap length].
  split; [| now rewrite IHl].
  change (name r :: (name <$> flat_map g l) = c :: l).
  now rewrite Hname, IHn.
Qed.

Lemma rules_names_length set_iter (f : FeatureInput) (X : gset string) :
  (forall X, set_iter X ≡ₚ elements X) ->
  Predictor.cropName <$> Predictor._predict_with_rules set_iter f (Some X)
  ≡ₚ elements X
  /\ length (Predictor._predict_with_rules set_iter f (Some X)) = size X.
Proof.
  intros Hperm. unfold Predictor._predict_with_rules. cbv zeta.
  rewrite sort_desc_length, sort_desc_perm.
  match goal with
  | |- _ <$> flat_map ?g _ ≡ₚ _ /\ _ =>
      destruct (flat_map_one_each Predictor.cropName g (set_iter X))
        as [Hn Hl]
  end.
  { intros crop.
    pose proof (temp_suitability_range crop (get_num f "avg_temperature" 25))
      as Hts.
    destruct (Py.ltb _ 30) eqn:Elt.
    { apply ltb_true in Elt. exfalso. lra. }
    eexists. split; reflexivity. }
  rewrite Hn, Hl. split; [apply Hperm |].
  now rewrite (Permutation_length (Hperm X)).
Qed.

(** C8.  With no trained artifacts, for the input PUNJAB, LUDHIANA, RABI,
    temperature 20 and nitrogen 120, the rule-based path recommends exactly
    the seven RABI default categories, and [predict] returns the first five
    of them; every entry is marked as a season match and has the score
    [round(50 + 40 * suitability, 1)], which lies between 50 and 90. *)
Theorem C8_rabi_rule_based_scenario
    (set_iter : gset string -> list string) (expm1 : Q -> Q)
    (Hiter : forall X, set_iter X ≡ₚ elements X) :
  let rabi := ["CEREALS_WHEAT"; "CEREALS_BARLEY"; "PULSES"; "OILSEEDS";
               "VEGETABLES"; "SPICES"; "TOBACCO"] in
  let scenario (r : Predictor.Recommendation) :=
    Predictor.cropName r ∈ rabi
    /\ Predictor.seasonMatch r = true
    /\ Predictor.suitabilityScore r
       = Py.round
           (50 + Predictor._calculate_temp_suitability (Predictor.cropName r) 20
                 * 40) 1
    /\ 50 <= Predictor.suitabilityScore r <= 90 in
  let result :=
    Predictor.predict set_iter expm1 Predictor.no_model ludhiana_rabi in
  let rule_recs :=
    Predictor._predict_with_rules set_iter (fst result)
      (Some (Predictor._get_crops_for_season Predictor.no_model
               "PUNJAB" "LUDHIANA" "RABI")) in
  Predictor.cropName <$> rule_recs ≡ₚ rabi
  /\ Forall scenario rule_recs
  /\ snd result = take 5 rule_recs
  /\ length (snd result) = 5%nat
  /\ Forall scenario (snd result).
Proof.
  intros rabi scenario result rule_recs.
  set (crops := Predictor._get_crops_for_season Predictor.no_model
                  "PUNJAB" "LUDHIANA" "RABI") in *.
  assert (elements crops ≡ₚ rabi) as Hcrops.
  { assert (crops = list_to_set rabi) as -> by (vm_compute; reflexivity).
    apply elements_list_to_set. compute_done. }
  assert (snd result = take 5 rule_recs) as Hout.
  { subst result rule_recs.
    apply (predict_rule_based set_iter expm1 Predictor.no_model ludhiana_rabi).
    reflexivity. }
  assert (Forall scenario rule_recs) as Hall.
  { subst rule_recs.
    eapply Forall_impl; [apply (rules_entries set_iter _ crops Hiter) |].
    intros r (Hin & Hm & Hs & Hlo & Hhi). subst scenario. cbv beta.
    repeat split; try assumption.
    - rewrite <- Hcrops. now apply elem_of_elements.
    - lra. }
  split.
  { subst rule_recs.
    destruct (rules_names_length set_iter (fst result) crops Hiter) as [-> _].
    exact Hcrops. }
  split; [exact Hall |].
  split; [exact Hout |].
  split.
  - rewrite Hout, length_take. subst rule_recs.
    destruct (rules_names_length set_iter (fst result) crops Hiter) as [_ ->].
    assert (size crops = 7%nat) as -> by (vm_compute; reflexivity).
    reflexivity.
  - rewrite Hout. now apply Forall_take.
Qed.

Lemma C8_witness :
  let rabi := ["CEREALS_WHEAT"; "CEREALS_BARLEY"; "PULSES"; "OILSEEDS";
               "VEGETABLES"; "SPICES"; "TOBACCO"] in
  let result :=
    Predictor.predict elements expm1_poly Predictor.no_model ludhiana_rabi in
  Forall (fun r => Predictor.cropName r ∈ rabi
                   /\ 50 <= Predictor.suitabilityScore r <= 90)
         (snd result)
  /\ length (snd result) = 5%nat.
Proof.
  intros rabi result.
  destruct (C8_rabi_rule_based_scenario elements expm1_poly
              (fun X => reflexivity (elements X)))
    as (_ & _ & _ & Hlen & Hall).
  split; [| exact Hlen].
  eapply Forall_impl; [exact Hall |].
  intros r (Hin & _ & _ & Hrange). split; assumption.
Defined.


(** * Further properties of the two predictor classes *)

(** ** Temperature suitability *)

(** X1.  The temperature suitability of every crop at every temperature
    lies between the floor 0.2 and 1, in both classes. *)
Theorem X1_temp_suitability_between_floor_and_one (crop : string) (t : Q) :
  0.2 <= Predictor._calculate_temp_suitability crop t <= 1
  /\ 0.2 <= PredictorV3._calculate_temp_suitability crop t <= 1.
Proof.
  split; [apply temp_suitability_range | exact (temp_suitability_range crop t)].
Qed.



Lemma inside_left_value (crop : string) (lo hi : Z) (t : Q) :
  Predictor.CROP_TEMP_RANGES !! crop = Some (lo, hi) ->
  inject_Z lo <= t <= (inject_Z lo + inject_Z hi) / 2 ->
  Predictor._calculate_temp_suitability crop t
  == 1 - 0.2 * (((inject_Z lo + inject_Z hi) / 2 - t)
                * / ((inject_Z hi - inject_Z lo) / 2)).
Proof.
  intros H [Hlo Hmid].
  pose proof (temp_range_ordered _ _ _ H) as Hord. rewrite Zlt_Qlt in Hord.
  rewrite (temp_suitability_inside _ _ _ _ H) by (split; qlra).
  rewrite Qabs_neg by qlra. unfold Qdiv.
  assert (- (t - (inject_Z lo + inject_Z hi) * / 2)
          == (inject_Z lo + inject_Z hi) * / 2 - t) as -> by ring.
  reflexivity.
Qed.

Lemma inside_right_value (crop : string) (lo hi : Z) (t : Q) :
  Predictor.CROP_TEMP_RANGES !! crop = Some (lo, hi) ->
  (inject_Z lo + inject_Z hi) / 2 <= t <= inject_Z hi ->
  Predictor._calculate_temp_suitability crop t
  == 1 - 0.2 * ((t - (inject_Z lo + inject_Z hi) / 2)
                * / ((inject_Z hi - inject_Z lo) / 2)).
Proof.
  intros H [Hmid Hhi].
  pose proof (temp_range_ordered _ _ _ H) as Hord. rewrite Zlt_Qlt in Hord.
  rewrite (temp_suitability_inside _ _ _ _ H) by (split; qlra).
  rewrite Qabs_pos by qlra. reflexivity.
Qed.

Lemma inside_at_least (crop : string) (lo hi : Z) (t : Q) :
  Predictor.CROP_TEMP_RANGES !! crop = Some (lo, hi) ->
  inject_Z lo <= t <= inject_Z hi ->
  0.8 <= Predictor._calculate_temp_suitability crop t.
Proof.
  intros H Hin.
  pose proof (temp_range_ordered _ _ _ H) as Hord. rewrite Zlt_Qlt in Hord.
  rewrite (temp_suitability_inside _ _ _ _ H Hin).
  pose proof (distance_bounds _ _ t Hord Hin) as [_ Hd].
  set (d := Qabs _ / _) in *. lra.
Qed.

Lemma outside_at_most (crop : string) (lo hi : Z) (t : Q) :
  Predictor.CROP_TEMP_RANGES !! crop = Some (lo, hi) ->
  t < inject_Z lo \/ inject_Z hi < t ->
  Predictor._calculate_temp_suitability crop t <= 0.8.
Proof.
  intros H [Hlo | Hhi].
  - rewrite (temp_suitability_below _ _ _ _ H Hlo). py_arith.
  - rewrite (temp_suitability_above _ _ _ _ H Hhi). py_arith.
Qed.

(** X3.  Moving the temperature towards the midpoint of the crop's range
    never lowers the suitability: it rises (weakly) up to the midpoint and
    falls (weakly) after it. *)
Theorem X3_temp_suitability_unimodal (crop : string) (lo hi : Z) (t1 t2 : Q)
    (Hrange : Predictor.CROP_TEMP_RANGES !! crop = Some (lo, hi))
    (Hle : t1 <= t2) :
  let mid := (inject_Z lo + inject_Z hi) / 2 in
  (t2 <= mid ->
   Predictor._calculate_temp_suitability crop t1
   <= Predictor._calculate_temp_suitability crop t2)
  /\ (mid <= t1 ->
      Predictor._calculate_temp_suitability crop t2
      <= Predictor._calculate_temp_suitability crop t1).
Proof.
  intros mid.
  pose proof (temp_range_ordered _ _ _ Hrange) as Hord.
  rewrite Zlt_Qlt in Hord.
  assert (0 < / ((inject_Z hi - inject_Z lo) / 2)) as Hinv
    by (apply Qinv_lt_0_compat; qlra).
  split; intros Hmid.
  - destruct (Qlt_le_dec t2 (inject_Z lo)) as [H2 | H2].
    { rewrite (temp_suitability_below _ _ _ _ Hrange H2).
      rewrite (temp_suitability_below _ _ _ t1 Hrange) by qlra. py_arith. }
    destruct (Qlt_le_dec t1 (inject_Z lo)) as [H1 | H1].
    { eapply Qle_trans; [apply (outside_at_most _ _ _ _ Hrange); now left |].
      apply (inside_at_least _ _ _ _ Hrange). subst mid. split; qlra. }
    rewrite (inside_left_value _ _ _ t1 Hrange) by (subst mid; split; qlra).
    rewrite (inside_left_value _ _ _ t2 Hrange) by (subst mid; split; qlra).
    fold mid.
    assert ((mid - t2) * / ((inject_Z hi - inject_Z lo) / 2)
            <= (mid - t1) * / ((inject_Z hi - inject_Z lo) / 2)) as Hm.
    { apply Qmult_le_compat_r; [lra | now apply Qlt_le_weak]. }
    lra.
  - destruct (Qlt_le_dec (inject_Z hi) t1) as [H1 | H1].
    { rewrite (temp_suitability_above _ _ _ _ Hrange H1).
      rewrite (temp_suitability_above _ _ _ t2 Hrange) by qlra. py_arith. }
    destruct (Qlt_le_dec (inject_Z hi) t2) as [H2 | H2].
    { eapply Qle_trans; [apply (outside_at_most _ _ _ _ Hrange); now right |].
      apply (inside_at_least _ _ _ _ Hrange). subst mid. split; qlra. }
    rewrite (inside_right_value _ _ _ t1 Hrange) by (subst mid; split; qlra).
    rewrite (inside_right_value _ _ _ t2 Hrange) by (subst mid; split; qlra).
    fold mid.
    assert ((t1 - mid) * / ((inject_Z hi - inject_Z lo) / 2)
            <= (t2 - mid) * / ((inject_Z hi - inject_Z lo) / 2)) as Hm.
    { apply Qmult_le_compat_r; [lra | now apply Qlt_le_weak]. }
    lra.
Qed.

Lemma X3_witness :
  let mid := (inject_Z 10 + inject_Z 25) / 2 in
  (15 <= mid ->
   Predictor._calculate_temp_suitability "CEREALS_WHEAT" 5
   <= Predictor._calculate_temp_suitability "CEREALS_WHEAT" 15)
  /\ (mid <= 5 ->
      Predictor._calculate_temp_suitability "CEREALS_WHEAT" 15
      <= Predictor._calculate_temp_suitability "CEREALS_WHEAT" 5).
Proof.
  apply (X3_temp_suitability_unimodal "CEREALS_WHEAT" 10 25 5 15).
  - reflexivity.
  - vm_compute. discriminate.
Defined.

(** ** Scores from model probabilities *)

(** The two probability curves of [_calculate_suitability_score_ml] never
    fall, and are not negative on a probability that is not negative. *)
Lemma coarse_curve_mono (p p' : Q) :
  p <= p' ->
  (if Py.leb 0.3 p then 65 + (p - 0.3) * 50
   else if Py.leb 0.15 p then 50 + (p - 0.15) * 100
   else if Py.leb 0.05 p then 30 + (p - 0.05) * 200
   else p * 600)
  <= (if Py.leb 0.3 p' then 65 + (p' - 0.3) * 50
      else if Py.leb 0.15 p' then 50 + (p' - 0.15) * 100
      else if Py.leb 0.05 p' then 30 + (p' - 0.05) * 200
      else p' * 600).
Proof. intros H. py_arith. Qed.

Lemma coarse_curve_nonneg (p : Q) :
  0 <= p ->
  0 <= (if Py.leb 0.3 p then 65 + (p - 0.3) * 50
        else if Py.leb 0.15 p then 50 + (p - 0.15) * 100
        else if Py.leb 0.05 p then 30 + (p - 0.05) * 200
        else p * 600).
Proof. intros H. py_arith. Qed.

Lemma fine_curve_mono (p p' : Q) :
  p <= p' -> Py.min 50 (p * 500) <= Py.min 50 (p' * 500).
Proof. intros H. py_arith. Qed.

Lemma fine_curve_nonneg (p : Q) : 0 <= p -> 0 <= Py.min 50 (p * 500).
Proof. intros H. py_arith. Qed.

Lemma v3_curve_mono (p p' : Q) :
  p <= p' ->
  (if Py.leb 0.2 p then 50
   else if Py.leb 0.1 p then 40 + (p - 0.1) * 100
   else if Py.leb 0.05 p then 25 + (p - 0.05) * 300
   else p * 500)
  <= (if Py.leb 0.2 p' then 50
      else if Py.leb 0.1 p' then 40 + (p' - 0.1) * 100
      else if Py.leb 0.05 p' then 25 + (p' - 0.05) * 300
      else p' * 500).
Proof. intros H. py_arith. Qed.

Lemma v3_curve_nonneg (p : Q) :
  0 <= p ->
  0 <= (if Py.leb 0.2 p then 50
        else if Py.leb 0.1 p then 40 + (p - 0.1) * 100
        else if Py.leb 0.05 p then 25 + (p - 0.05) * 300
        else p * 500).
Proof. intros H. py_arith. Qed.

(** Split on the band tests of the environmental bonus. *)
Ltac band_cases :=
  repeat match goal with
    | |- context [Py.leb ?a ?b && Py.leb ?c ?d] =>
        destruct (Py.leb a b && Py.leb c d)
    end.

(** X4.  The score [_calculate_suitability_score_ml] derives from a
    probability lies in [0,100]; it is at least 30 when the probability is
    not negative, and also when the class index is beyond the probability
    row. *)
Theorem X4_ml_score_bounds (m : Predictor.Model) (idx : nat)
    (probabilities : list Q) (f : FeatureInput) :
  let s := Predictor._calculate_suitability_score_ml m idx probabilities f in
  0 <= s <= 100
  /\ (probabilities !! idx = None -> 30 <= s)
  /\ (forall p, probabilities !! idx = Some p -> 0 <= p -> 30 <= s).
Proof.
  intros s. split; [apply ml_score_range |]. subst s.
  unfold Predictor._calculate_suitability_score_ml. cbv zeta. split.
  - intros ->. destruct (truthy f); band_cases; py_arith.
  - intros p -> Hp.
    destruct (bool_decide _).
    + pose proof (coarse_curve_nonneg p Hp) as Hc.
      set (c := if Py.leb 0.3 p then _ else _) in *.
      destruct (truthy f); band_cases; py_arith.
    + pose proof (fine_curve_nonneg p Hp) as Hc.
      set (c := Py.min 50 _) in *.
      destruct (truthy f); band_cases; py_arith.
Qed.

(** X5.  A higher model probability never gives a lower base score, all
    else equal: in [_calculate_suitability_score_ml] for every model
    version, and in [_calculate_suitability_score] of the v3 class. *)
Theorem X5_score_monotone_in_probability (m : Predictor.Model) (idx : nat)
    (probabilities probabilities' : list Q) (f : FeatureInput) (crop : string)
    (p p' : Q)
    (Hp : probabilities !! idx = Some p)
    (Hp' : probabilities' !! idx = Some p')
    (Hle : p <= p') :
  Predictor._calculate_suitability_score_ml m idx probabilities f
  <= Predictor._calculate_suitability_score_ml m idx probabilities' f
  /\ PredictorV3._calculate_suitability_score crop p f
     <= PredictorV3._calculate_suitability_score crop p' f.
Proof.
  split.
  - unfold Predictor._calculate_suitability_score_ml. cbv zeta.
    rewrite Hp, Hp'. destruct (bool_decide _).
    + pose proof (coarse_curve_mono p p' Hle) as Hc.
      set (c := if Py.leb 0.3 p then _ else _) in *.
      set (c' := if Py.leb 0.3 p' then _ else _) in *.
      destruct (truthy f); band_cases; py_arith.
    + pose proof (fine_curve_mono p p' Hle) as Hc.
      set (c := Py.min 50 (p * 500)) in *.
      set (c' := Py.min 50 (p' * 500)) in *.
      destruct (truthy f); band_cases; py_arith.
  - unfold PredictorV3._calculate_suitability_score. cbv zeta.
    pose proof (v3_curve_mono p p' Hle) as Hc.
    set (c := if Py.leb 0.2 p then _ else _) in *.
    set (c' := if Py.leb 0.2 p' then _ else _) in *.
    set (ts := PredictorV3._calculate_temp_suitability _ _).
    band_cases; py_arith.
Qed.

Lemma X5_witness :
  Predictor._calculate_suitability_score_ml rice_model 0 [0.1] ludhiana_kharif_mild
  <= Predictor._calculate_suitability_score_ml rice_model 0 [0.2]
       ludhiana_kharif_mild
  /\ PredictorV3._calculate_suitability_score "CEREALS_RICE" 0.1
       ludhiana_kharif_mild
     <= PredictorV3._calculate_suitability_score "CEREALS_RICE" 0.2
          ludhiana_kharif_mild.
Proof.
  apply (X5_score_monotone_in_probability rice_model 0 [0.1] [0.2]
           ludhiana_kharif_mild "CEREALS_RICE" 0.1 0.2).
  - reflexivity.
  - reflexivity.
  - vm_compute. discriminate.
Defined.

(** X6.  In the v3 class the base score of a crop lies in [0,100], and for
    a probability that is not negative it is at least 33: thirty points of
    base and at least three for the temperature. *)
Theorem X6_v3_score_bounds (crop : string) (prob : Q) (f : FeatureInput) :
  let s := PredictorV3._calculate_suitability_score crop prob f in
  0 <= s <= 100 /\ (0 <= prob -> 33 <= s).
Proof.
  intros s. split; [apply v3_score_range |]. intros Hp. subst s.
  unfold PredictorV3._calculate_suitability_score. cbv zeta.
  pose proof (temp_suitability_range crop (get_num f "avg_temperature" 25))
    as Hts.
  change (PredictorV3._calculate_temp_suitability crop
            (get_num f "avg_temperature" 25))
    with (Predictor._calculate_temp_suitability crop
            (get_num f "avg_temperature" 25)).
  set (ts := Predictor._calculate_temp_suitability _ _) in *.
  pose proof (v3_curve_nonneg prob Hp) as Hc.
  set (c := if Py.leb 0.2 prob then _ else _) in *.
  band_cases; py_arith.
Qed.

(** ** The feature vector *)

Lemma index_lookup (x : string) (l : list string) :
  x ∈ l -> l !! Py.index x l = Some x.
Proof.
  induction l as [| y l IH]; intros Hin; [now apply elem_of_nil in Hin |].
  simpl. destruct (String.eqb y x) eqn:E.
  - apply String.eqb_eq in E. now subst.
  - apply String.eqb_neq in E. apply elem_of_cons in Hin as [-> | Hin];
      [congruence | now apply IH].
Qed.

(** X7.  [_prepare_features] builds 16 numbers for a v3 model, 21 for a v2
    model and 15 otherwise; the v3 class builds 16 for a v3 model and 21
    otherwise. *)
Theorem X7_feature_vector_length (m : Predictor.Model) (m3 : PredictorV3.Model)
    (f : FeatureInput) :
  length (Predictor._prepare_features m f)
  = match Predictor.model_version m with
    | Some V3 => 16%nat
    | Some V2 => 21%nat
    | _ => 15%nat
    end
  /\ length (PredictorV3._prepare_features m3 f)
     = if bool_decide (PredictorV3.model_version m3 = Some V3)
       then 16%nat else 21%nat.
Proof.
  split.
  - unfold Predictor._prepare_features. cbv zeta.
    destruct (Predictor.model_version m) as [[] |]; reflexivity.
  - unfold PredictorV3._prepare_features. cbv zeta.
    destruct (bool_decide _); reflexivity.
Qed.

(** X8.  In the vector of a v2 or v3 model the first two entries are the
    positions of the upper-cased state and district in the encoder tables,
    so a known name can be read back from its code; a name that is not in
    its table is coded 0, the code of the table's first entry. *)
Theorem X8_location_codes_round_trip (m : Predictor.Model) (f : FeatureInput)
    (Hversion : Predictor.model_version m = Some V2
                \/ Predictor.model_version m = Some V3) :
  let state := Py.upper (get_str f "state" "") in
  let district := Py.upper (get_str f "district" "") in
  let states := Predictor.state_classes (Predictor.encoders m) in
  let districts := Predictor.district_classes (Predictor.encoders m) in
  exists i j,
    Predictor._prepare_features m f !! 0%nat = Some (qnat i)
    /\ Predictor._prepare_features m f !! 1%nat = Some (qnat j)
    /\ (state ∈ states -> states !! i = Some state)
    /\ (state ∉ states -> i = 0%nat)
    /\ (district ∈ districts -> districts !! j = Some district)
    /\ (district ∉ districts -> j = 0%nat).
Proof.
  intros state district states districts.
  exists (if Py.mem state states then Py.index state states else 0%nat),
         (if Py.mem district districts then Py.index district districts
          else 0%nat).
  unfold Py.mem.
  split; [| split].
  - unfold Predictor._prepare_features. cbv zeta.
    destruct Hversion as [-> | ->]; reflexivity.
  - unfold Predictor._prepare_features. cbv zeta.
    destruct Hversion as [-> | ->]; reflexivity.
  - repeat split.
    + intros H. rewrite bool_decide_eq_true_2 by exact H.
      now apply index_lookup.
    + intros H. now rewrite bool_decide_eq_false_2 by exact H.
    + intros H. rewrite bool_decide_eq_true_2 by exact H.
      now apply index_lookup.
    + intros H. now rewrite bool_decide_eq_false_2 by exact H.
Qed.

Lemma X8_witness :
  exists i j,
    Predictor._prepare_features rice_model ludhiana_kharif_mild !! 0%nat
    = Some (qnat i)
    /\ Predictor._prepare_features rice_model ludhiana_kharif_mild !! 1%nat
       = Some (qnat j)
    /\ ("PUNJAB" ∈ ["PUNJAB"] -> ["PUNJAB"] !! i = Some "PUNJAB")
    /\ ("PUNJAB" ∉ ["PUNJAB"] -> i = 0%nat)
    /\ ("LUDHIANA" ∈ ["LUDHIANA"] -> ["LUDHIANA"] !! j = Some "LUDHIANA")
    /\ ("LUDHIANA" ∉ ["LUDHIANA"] -> j = 0%nat).
Proof.
  apply (X8_location_codes_round_trip rice_model ludhiana_kharif_mild).
  right. reflexivity.
Defined.

(** X9.  For a v3 model whose encoder file lists the season classes, the
    two classes build the same feature vector from the same encoder
    tables. *)
Theorem X9_v3_feature_vectors_agree (m : Predictor.Model)
    (m3 : PredictorV3.Model) (f : FeatureInput) (seasons : list string)
    (Hv : Predictor.model_version m = Some V3)
    (Hv3 : PredictorV3.model_version m3 = Some V3)
    (Hstates : PredictorV3.state_classes (PredictorV3.encoders m3)
               = Predictor.state_classes (Predictor.encoders m))
    (Hdistricts : PredictorV3.district_classes (PredictorV3.encoders m3)
                  = Predictor.district_classes (Predictor.encoders m))
    (Hseasons : Predictor.season_classes (Predictor.encoders m) = Some seasons)
    (Hseasons3 : PredictorV3.season_classes (PredictorV3.encoders m3)
                 = Some seasons) :
  PredictorV3._prepare_features m3 f = Predictor._prepare_features m f.
Proof.
  unfold PredictorV3._prepare_features, Predictor._prepare_features. cbv zeta.
  rewrite Hv, Hv3, Hstates, Hdistricts, Hseasons, Hseasons3.
  rewrite bool_decide_eq_true_2 by reflexivity. reflexivity.
Qed.

Lemma X9_witness :
  PredictorV3._prepare_features low_profile_model_v3 ludhiana_rabi_cool
  = Predictor._prepare_features low_profile_model ludhiana_rabi_cool.
Proof.
  apply (X9_v3_feature_vectors_agree low_profile_model low_profile_model_v3
           ludhiana_rabi_cool ["KHARIF"; "RABI"]); reflexivity.
Defined.

(** ** The crops of a season *)

Lemma upper_app (a b : string) : Py.upper (a ++ b) = Py.upper a ++ Py.upper b.
Proof. induction a as [| c a IH]; simpl; [reflexivity | now rewrite IH]. Qed.

Lemma location_key_upper (state district : string) :
  Py.upper (Py.upper state ++ "_" ++ Py.upper district)
  = Py.upper (state ++ "_" ++ district).
Proof. now rewrite !upper_app, !upper_idem. Qed.

Lemma prefix_empty (k : string) : String.prefix "" k = true.
Proof. now destruct k. Qed.

(** X10.  The season resolver ignores the letter case of the state, the
    district and the season, in both classes. *)
Theorem X10_season_crops_case_insensitive (m : Predictor.Model)
    (m3 : PredictorV3.Model) (state district season : string) :
  Predictor._get_crops_for_season m (Py.upper state) (Py.upper district)
    (Py.upper season)
  = Predictor._get_crops_for_season m state district season
  /\ PredictorV3._get_crops_for_season m3 (Py.upper state) (Py.upper district)
       (Py.upper season)
     = PredictorV3._get_crops_for_season m3 state district season.
Proof.
  unfold Predictor._get_crops_for_season, PredictorV3._get_crops_for_season.
  cbv zeta. now rewrite location_key_upper, !upper_idem.
Qed.

(** X11.  When the caller gives no state, and the season's table has no
    entry under the key ["_" + district], the resolver returns the crops of
    the first location of that table: the empty state is a prefix of every
    key. *)
Theorem X11_missing_state_takes_first_location (m : Predictor.Model)
    (table : gmap string (list (string * list string)))
    (district season first_key : string) (first_crops : list string)
    (others : list (string * list string))
    (Htable : Predictor.season_crop_map m = Some table)
    (Hseason : table !! Py.upper season
               = Some ((first_key, first_crops) :: others))
    (Hmiss : assoc (Py.upper ("_" ++ district))
               ((first_key, first_crops) :: others) = None) :
  Predictor._get_crops_for_season m "" district season
  = list_to_set first_crops.
Proof.
  unfold Predictor._get_crops_for_season. cbv zeta. rewrite Htable.
  rewrite bool_decide_eq_false_2.
  2: { intros ->. rewrite lookup_empty in Hseason. discriminate. }
  rewrite Hseason.
  change ("" ++ "_" ++ district) with ("_" ++ district). rewrite Hmiss.
  cbn [find fst snd Py.upper]. now rewrite prefix_empty.
Qed.

Lemma X11_witness :
  Predictor._get_crops_for_season punjab_table_model "" "Patiala" "rabi"
  = list_to_set ["CEREALS_WHEAT"; "OILSEEDS"].
Proof.
  apply (X11_missing_state_takes_first_location punjab_table_model
           punjab_season_table "Patiala" "rabi" "PUNJAB_AMRITSAR" ["CEREALS_WHEAT"; "OILSEEDS"]
           [("PUNJAB_LUDHIANA", ["CEREALS_WHEAT"; "PULSES"])]).
  - reflexivity.
  - vm_compute. reflexivity.
  - vm_compute. reflexivity.
Defined.

Lemma default_season_crops_cases (season : string) :
  ((season ∈ ["KHARIF"; "RABI"; "SUMMER"; "WINTER"; "AUTUMN"; "WHOLE YEAR"])
   /\ exists crops, Predictor.DEFAULT_SEASON_CROPS !! season = Some crops
                    /\ NoDup crops /\ (5 <= length crops)%nat)
  \/ ((season ∉ ["KHARIF"; "RABI"; "SUMMER"; "WINTER"; "AUTUMN"; "WHOLE YEAR"])
      /\ Predictor.DEFAULT_SEASON_CROPS !! season = None).
Proof.
  destruct (decide (season ∈ ["KHARIF"; "RABI"; "SUMMER"; "WINTER"; "AUTUMN";
                              "WHOLE YEAR"])) as [Hin | Hout].
  - left. split; [exact Hin |].
    repeat (apply elem_of_cons in Hin as [-> | Hin];
            [eexists; split; [reflexivity |];
             split; [compute_done | simpl; lia] |]).
    now apply elem_of_nil in Hin.
  - right. split; [exact Hout |].
    unfold Predictor.DEFAULT_SEASON_CROPS.
    apply not_elem_of_list_to_map_1. simpl. exact Hout.
Qed.

Lemma default_season_sets (m : Predictor.Model)
    (state district season : string)
    (Htable : Predictor.season_crop_map m = None
              \/ Predictor.season_crop_map m = Some ∅) :
  let seasons := ["KHARIF"; "RABI"; "SUMMER"; "WINTER"; "AUTUMN";
                  "WHOLE YEAR"] in
  let crops := Predictor._get_crops_for_season m state district season in
  (Py.upper season ∈ seasons -> (5 <= size crops)%nat)
  /\ (Py.upper season ∉ seasons -> crops = ∅).
Proof.
  intros seasons crops.
  assert (crops = list_to_set
                    (default [] (Predictor.DEFAULT_SEASON_CROPS
                                   !! Py.upper season))) as ->.
  { subst crops. unfold Predictor._get_crops_for_season. cbv zeta.
    destruct Htable as [-> | ->]; [reflexivity |].
    now rewrite bool_decide_eq_true_2 by reflexivity. }
  destruct (default_season_crops_cases (Py.upper season))
    as [(Hin & l & -> & Hnd & Hlen) | (Hout & ->)];
    (split; [intros Hs | intros Hs]); simpl; try reflexivity;
    try contradiction.
  now rewrite size_list_to_set.
Qed.


(** X12.  Without a season table (a v1 or v2 load, no model, or an empty
    v3 table) the resolver returns the default set of the upper-cased
    season, which has at least five crops for each of the six seasons the
    class knows, and the empty set for any other season. *)
Theorem X12_default_season_sets (m : Predictor.Model)
    (state district season : string)
    (Htable : Predictor.season_crop_map m = None
              \/ Predictor.season_crop_map m = Some ∅) :
  let seasons := ["KHARIF"; "RABI"; "SUMMER"; "WINTER"; "AUTUMN";
                  "WHOLE YEAR"] in
  let crops := Predictor._get_crops_for_season m state district season in
  (Py.upper season ∈ seasons -> (5 <= size crops)%nat)
  /\ (Py.upper season ∉ seasons -> crops = ∅).
Proof. exact (default_season_sets m state district season Htable). Qed.

Lemma X12_witness :
  let seasons := ["KHARIF"; "RABI"; "SUMMER"; "WINTER"; "AUTUMN";
                  "WHOLE YEAR"] in
  let crops :=
    Predictor._get_crops_for_season Predictor.no_model "PUNJAB" "LUDHIANA"
      "Rabi" in
  (Py.upper "Rabi" ∈ seasons -> (5 <= size crops)%nat)
  /\ (Py.upper "Rabi" ∉ seasons -> crops = ∅).
Proof.
  apply (X12_default_season_sets Predictor.no_model "PUNJAB" "LUDHIANA" "Rabi").
  left. reflexivity.
Defined.

(** ** The fallback to the rule-based path *)

Lemma failed_call_rule_based
    (set_iter : gset string -> list string) (expm1 : Q -> Q)
    (m : Predictor.Model) (f : FeatureInput)
    (Hfail :
       let g := fst (Predictor.predict set_iter expm1 m f) in
       Predictor.use_ml_model m = false
       \/ Predictor.scaler m (Predictor._prepare_features m g) = None
       \/ (exists x, Predictor.scaler m (Predictor._prepare_features m g) = Some x
                     /\ Predictor.classifier m x = None)
       \/ Predictor.crop_classes (Predictor.encoders m) = None) :
  let state := Py.upper (get_str f "state" "") in
  let district := Py.upper (get_str f "district" "") in
  let season := Py.upper (get_str f "season" "KHARIF") in
  snd (Predictor.predict set_iter expm1 m f)
  = take 5
      (Predictor._predict_with_rules set_iter
         (fst (Predictor.predict set_iter expm1 m f))
         (Some (Predictor._get_crops_for_season m state district season))).
Proof.
  intros state district season. cbv zeta in Hfail.
  rewrite predict_dictionary in *.
  unfold Predictor.predict, Predictor.predict_candidates. cbv zeta.
  fold state district season in Hfail |- *.
  set (g := set_str _ "season" season) in *.
  set (crops := Predictor._get_crops_for_season m state district season).
  set (rules := Predictor._predict_with_rules set_iter g (Some crops)).
  assert ((if Predictor.use_ml_model m
           then match Predictor.predict_ml_try expm1 m g state district
                        (get_num f "avg_temperature" 25) crops with
                | Some recommendations => recommendations
                | None => rules
                end
           else rules) = rules) as ->.
  { destruct (Predictor.use_ml_model m); [| reflexivity].
    unfold Predictor.predict_ml_try. cbv zeta.
    destruct Hfail as [H | [H | [(x & Hx & H) | H]]].
    - discriminate.
    - now rewrite H.
    - rewrite Hx. simpl. now rewrite H.
    - destruct (Predictor.scaler m _) as [x |]; [simpl | reflexivity].
      destruct (Predictor.classifier m x); [simpl | reflexivity].
      now rewrite H. }
  assert (Py.sort_desc Predictor.rec_lt rules = rules) as Hid.
  { apply sort_desc_sorted_id. subst rules. unfold Predictor._predict_with_rules.
    cbv zeta. apply (sort_desc_sorted _ rec_lt_asym rec_ge_trans). }
  destruct (_ <? 5)%nat; simpl; [| now rewrite Hid].
  rewrite supplement_no_new; [now rewrite Hid |].
  intros r Hr. now apply list_elem_of_fmap_2.
Qed.


(** X13.  When no model is loaded, or the scaler or the classifier raises
    on this input, or the encoder file has no crop classes, [predict]
    returns the first five rule-based recommendations for the resolved
    season set. *)
Theorem X13_failed_model_call_gives_rule_based_list
    (set_iter : gset string -> list string) (expm1 : Q -> Q)
    (m : Predictor.Model) (f : FeatureInput)
    (Hfail :
       let g := fst (Predictor.predict set_iter expm1 m f) in
       Predictor.use_ml_model m = false
       \/ Predictor.scaler m (Predictor._prepare_features m g) = None
       \/ (exists x, Predictor.scaler m (Predictor._prepare_features m g) = Some x
                     /\ Predictor.classifier m x = None)
       \/ Predictor.crop_classes (Predictor.encoders m) = None) :
  let state := Py.upper (get_str f "state" "") in
  let district := Py.upper (get_str f "district" "") in
  let season := Py.upper (get_str f "season" "KHARIF") in
  snd (Predictor.predict set_iter expm1 m f)
  = take 5
      (Predictor._predict_with_rules set_iter
         (fst (Predictor.predict set_iter expm1 m f))
         (Some (Predictor._get_crops_for_season m state district season))).
Proof. exact (failed_call_rule_based set_iter expm1 m f Hfail). Qed.

Lemma X13_witness :
  snd (Predictor.predict elements expm1_poly Predictor.no_model ludhiana_rabi)
  = take 5
      (Predictor._predict_with_rules elements
         (fst (Predictor.predict elements expm1_poly Predictor.no_model
                 ludhiana_rabi))
         (Some (Predictor._get_crops_for_season Predictor.no_model
                  (Py.upper (get_str ludhiana_rabi "state" ""))
                  (Py.upper (get_str ludhiana_rabi "district" ""))
                  (Py.upper (get_str ludhiana_rabi "season" "KHARIF"))))).
Proof.
  apply (X13_failed_model_call_gives_rule_based_list elements expm1_poly
           Predictor.no_model ludhiana_rabi).
  left. reflexivity.
Defined.

(** ** The number of recommendations *)

Section TopUp.
Context {B : Type} (name : B -> string) (existing : gset string).

(** The topping-up loop stops at five entries and otherwise takes every
    record whose name is new. *)
Lemma foldl_top_up_length (extra acc : list B) :
  (length acc <= 5)%nat ->
  length
    (foldl (fun acc r =>
              if negb (bool_decide (name r ∈ existing)) && (length acc <? 5)%nat
              then app acc [r] else acc)
           acc extra)
  = Nat.min 5 (length acc
               + length (filter (fun r => name r ∉ existing) extra)).
Proof.
  revert acc. induction extra as [| r extra IH]; intros acc Hacc;
    cbn [foldl].
  { rewrite filter_nil. cbn [length]. lia. }
  rewrite filter_cons. destruct (decide (name r ∉ existing)) as [Hnew | Hold].
  - rewrite bool_decide_eq_false_2 by exact Hnew. cbn [negb andb length].
    destruct (length acc <? 5)%nat eqn:E.
    + apply Nat.ltb_lt in E.
      rewrite IH by (rewrite length_app; cbn [length]; lia).
      rewrite length_app. cbn [length]. lia.
    + apply Nat.ltb_ge in E. rewrite IH by exact Hacc. lia.
  - rewrite bool_decide_eq_true_2 by (now apply dec_stable).
    cbn [negb andb]. now apply IH.
Qed.

Lemma known_names_bounded (recs extra : list B) :
  NoDup (name <$> extra) ->
  (forall r, r ∈ extra -> name r ∈ existing -> name r ∈ name <$> recs) ->
  (length extra
   <= length recs + length (filter (fun r => name r ∉ existing) extra))%nat.
Proof.
  intros Hnd Hin.
  assert (length (filter (fun r => name r ∈ existing) extra) <= length recs)%nat
    as Hknown.
  { rewrite <- (length_fmap name), <- (length_fmap name recs).
    apply submseteq_length, NoDup_submseteq.
    - eapply sublist_NoDup; [exact Hnd |]. apply fmap_sublist, sublist_filter.
    - intros x Hx. apply list_elem_of_fmap in Hx as (r & -> & Hr).
      apply list_elem_of_filter in Hr as [Hr1 Hr2]. now apply Hin. }
  pose proof (filter_app_complement (fun r => name r ∈ existing) extra) as Hp.
  apply Permutation_length in Hp. rewrite length_app in Hp.
  assert (length (filter (fun r => ¬ name r ∈ existing) extra)
          = length (filter (fun r => name r ∉ existing) extra)) as Heq
    by reflexivity.
  lia.
Qed.

End TopUp.

(** X14.  Whenever the season set that [predict] resolves has at least
    five crops, [predict] returns exactly five recommendations, whatever
    the model does: a short model-informed list is topped up from the
    rules. *)
Theorem X14_five_recommendations_for_five_season_crops
    (set_iter : gset string -> list string) (expm1 : Q -> Q)
    (m : Predictor.Model) (f : FeatureInput)
    (Hiter : forall X, set_iter X ≡ₚ elements X)
    (Hcrops :
       (5 <= size (Predictor._get_crops_for_season m
                     (Py.upper (get_str f "state" ""))
                     (Py.upper (get_str f "district" ""))
                     (Py.upper (get_str f "season" "KHARIF"))))%nat) :
  length (snd (Predictor.predict set_iter expm1 m f)) = 5%nat.
Proof.
  unfold Predictor.predict, Predictor.predict_candidates. cbv zeta. cbn [snd].
  set (g := set_str _ "season" _).
  set (crops := Predictor._get_crops_for_season _ _ _ _) in *.
  set (rules := Predictor._predict_with_rules set_iter g (Some crops)).
  destruct (rules_names_length set_iter g crops Hiter) as [Hnames Hlen].
  fold rules in Hnames, Hlen.
  rewrite length_take, sort_desc_length.
  match goal with
  | |- context [if (length ?l0 <? 5)%nat then _ else _] => set (recs := l0)
  end.
  destruct (length recs <? 5)%nat eqn:E;
    [apply Nat.ltb_lt in E | apply Nat.ltb_ge in E; lia].
  unfold Predictor.supplement. cbv zeta.
  rewrite (foldl_top_up_length Predictor.cropName) by lia.
  pose proof (known_names_bounded Predictor.cropName
                (list_to_set (Predictor.cropName <$> recs)) recs rules) as Hb.
  rewrite Hlen in Hb.
  assert (NoDup (Predictor.cropName <$> rules)) as Hnd
    by (rewrite Hnames; apply NoDup_elements).
  specialize (Hb Hnd).
  assert (forall r, r ∈ rules ->
            Predictor.cropName r
            ∈ (list_to_set (Predictor.cropName <$> recs) : gset string) ->
            Predictor.cropName r ∈ Predictor.cropName <$> recs) as Hin.
  { intros r _ Hr. now apply elem_of_list_to_set in Hr. }
  specialize (Hb Hin). lia.
Qed.

Lemma X14_witness :
  length (snd (Predictor.predict elements expm1_poly v2_model_broken_regressor
                 ludhiana_rabi_cool))
  = 5%nat.
Proof.
  apply (X14_five_recommendations_for_five_season_crops elements expm1_poly
           v2_model_broken_regressor ludhiana_rabi_cool).
  - intros X. reflexivity.
  - vm_compute. lia.
Defined.

Lemma set_iter_empty (set_iter : gset string -> list string) :
  (forall X, set_iter X ≡ₚ elements X) -> set_iter ∅ = [].
Proof.
  intros H. apply Permutation_nil_r. now rewrite H, elements_empty.
Qed.

(** X15.  For a season that is none of the six the class knows, with no
    model and no season table, both classes return the empty list. *)
Theorem X15_unknown_season_without_model_gives_nothing
    (set_iter : gset string -> list string) (expm1 : Q -> Q)
    (m : Predictor.Model) (m3 : PredictorV3.Model) (f : FeatureInput)
    (Hiter : forall X, set_iter X ≡ₚ elements X)
    (Hseason : Py.upper (get_str f "season" "KHARIF")
               ∉ ["KHARIF"; "RABI"; "SUMMER"; "WINTER"; "AUTUMN";
                  "WHOLE YEAR"])
    (Hmodel : Predictor.use_ml_model m = false)
    (Htable : Predictor.season_crop_map m = None
              \/ Predictor.season_crop_map m = Some ∅)
    (Hmodel3 : PredictorV3.use_ml_model m3 = false)
    (Htable3 : PredictorV3.season_crop_map m3 = ∅) :
  snd (Predictor.predict set_iter expm1 m f) = []
  /\ snd (PredictorV3.predict set_iter m3 f) = [].
Proof.
  rewrite <- (upper_idem (get_str f "season" "KHARIF")) in Hseason.
  split.
  - rewrite (failed_call_rule_based set_iter expm1 m f)
      by (now left).
    destruct (default_season_sets m (Py.upper (get_str f "state" ""))
                (Py.upper (get_str f "district" ""))
                (Py.upper (get_str f "season" "KHARIF")) Htable) as [_ ->];
      [| exact Hseason].
    unfold Predictor._predict_with_rules. cbv zeta.
    now rewrite (set_iter_empty set_iter Hiter).
  - unfold PredictorV3.predict. cbv zeta. rewrite Hmodel3. cbn [negb snd].
    unfold PredictorV3._fallback_predictions. cbv zeta.
    assert (PredictorV3._get_crops_for_season m3
              (Py.upper (get_str f "state" ""))
              (Py.upper (get_str f "district" ""))
              (Py.upper (get_str f "season" "KHARIF")) = ∅) as ->.
    { unfold PredictorV3._get_crops_for_season. cbv zeta. rewrite Htable3.
      rewrite bool_decide_eq_true_2 by reflexivity.
      destruct (default_season_crops_cases
                  (Py.upper (Py.upper (get_str f "season" "KHARIF"))))
        as [(Hin & _) | (_ & Hnone)]; [contradiction |].
      unfold PredictorV3.DEFAULT_SEASON_CROPS. now rewrite Hnone. }
    now rewrite (set_iter_empty set_iter Hiter).
Qed.

Lemma X15_witness :
  snd (Predictor.predict elements expm1_poly Predictor.no_model
         ludhiana_monsoon) = []
  /\ snd (PredictorV3.predict elements PredictorV3.no_model ludhiana_monsoon)
     = [].
Proof.
  apply (X15_unknown_season_without_model_gives_nothing elements expm1_poly
           Predictor.no_model PredictorV3.no_model ludhiana_monsoon).
  - intros X. reflexivity.
  - compute_done.
  - reflexivity.
  - left. reflexivity.
  - reflexivity.
  - reflexivity.
Defined.

(** ** What [predict] reads of its input *)

Lemma respelled_normalises_same (f : FeatureInput) (state district season : string) :
  Py.upper state = Py.upper (get_str f "state" "") ->
  Py.upper district = Py.upper (get_str f "district" "") ->
  Py.upper season = Py.upper (get_str f "season" "KHARIF") ->
  let g := set_str (set_str (set_str f "state" state) "district" district)
                   "season" season in
  Py.upper (get_str g "state" "") = Py.upper (get_str f "state" "")
  /\ Py.upper (get_str g "district" "") = Py.upper (get_str f "district" "")
  /\ Py.upper (get_str g "season" "KHARIF")
     = Py.upper (get_str f "season" "KHARIF")
  /\ get_num g "avg_temperature" 25 = get_num f "avg_temperature" 25
  /\ set_str
       (set_str
          (set_str g "state" (Py.upper (get_str f "state" "")))
          "district" (Py.upper (get_str f "district" "")))
       "season" (Py.upper (get_str f "season" "KHARIF"))
     = set_str
         (set_str
            (set_str f "state" (Py.upper (get_str f "state" "")))
            "district" (Py.upper (get_str f "district" "")))
         "season" (Py.upper (get_str f "season" "KHARIF")).
Proof.
  intros Hs Hd Hse g. subst g. unfold get_str, set_str, get_num in *. simpl.
  rewrite lookup_insert_eq.
  rewrite (lookup_insert_ne _ "season" "district") by discriminate.
  rewrite lookup_insert_eq.
  rewrite (lookup_insert_ne _ "season" "state") by discriminate.
  rewrite (lookup_insert_ne _ "district" "state") by discriminate.
  rewrite lookup_insert_eq. simpl.
  repeat split; try assumption. f_equal.
  apply map_eq. intros k. rewrite !lookup_insert.
  repeat case_decide; congruence.
Qed.

(** X16.  [predict] reads the state, the district and the season only
    through their upper-cased spelling: respelling any of the three in
    another letter case changes neither the returned list nor the
    dictionary the call leaves behind; in both classes. *)
Theorem X16_predict_ignores_letter_case
    (set_iter : gset string -> list string) (expm1 : Q -> Q)
    (m : Predictor.Model) (m3 : PredictorV3.Model) (f : FeatureInput)
    (state district season : string)
    (Hstate : Py.upper state = Py.upper (get_str f "state" ""))
    (Hdistrict : Py.upper district = Py.upper (get_str f "district" ""))
    (Hseason : Py.upper season = Py.upper (get_str f "season" "KHARIF")) :
  let g := set_str (set_str (set_str f "state" state) "district" district)
                   "season" season in
  Predictor.predict set_iter expm1 m g = Predictor.predict set_iter expm1 m f
  /\ PredictorV3.predict set_iter m3 g = PredictorV3.predict set_iter m3 f.
Proof.
  intros g.
  destruct (respelled_normalises_same f state district season
              Hstate Hdistrict Hseason) as (Hst & Hd & Hse & Ht & Hfix).
  fold g in Hst, Hd, Hse, Ht, Hfix. split.
  - unfold Predictor.predict, Predictor.predict_candidates. cbv zeta.
    rewrite Hst, Hd, Hse, Ht, Hfix. reflexivity.
  - unfold PredictorV3.predict. cbv zeta.
    rewrite Hst, Hd, Hse, Ht, Hfix. reflexivity.
Qed.

Lemma X16_witness :
  let g := set_str (set_str (set_str ghaziabad_kharif "state" "uttar pradesh")
                            "district" "GHAZIABAD")
                   "season" "KHARIF" in
  Predictor.predict elements expm1_poly rice_model g
  = Predictor.predict elements expm1_poly rice_model ghaziabad_kharif
  /\ PredictorV3.predict elements low_profile_model_v3 g
     = PredictorV3.predict elements low_profile_model_v3 ghaziabad_kharif.
Proof.
  apply (X16_predict_ignores_letter_case elements expm1_poly rice_model
           low_profile_model_v3 ghaziabad_kharif
           "uttar pradesh" "GHAZIABAD" "KHARIF"); reflexivity.
Defined.

(** ** The scores and entries of the output *)

(** X17.  Every suitability score [predict] returns lies between 30 and
    110 in [CropPredictor] and between 30 and 100 in [CropPredictorV3];
    both return at most five entries. *)
Theorem X17_returned_scores_range
    (set_iter : gset string -> list string) (expm1 : Q -> Q)
    (m : Predictor.Model) (m3 : PredictorV3.Model) (f : FeatureInput) :
  Forall (fun r => 30 <= Predictor.suitabilityScore r <= 110)
         (snd (Predictor.predict set_iter expm1 m f))
  /\ Forall (fun r => 30 <= PredictorV3.suitabilityScore r <= 100)
            (snd (PredictorV3.predict set_iter m3 f))
  /\ (length (snd (Predictor.predict set_iter expm1 m f)) <= 5)%nat
  /\ (length (snd (PredictorV3.predict set_iter m3 f)) <= 5)%nat.
Proof.
  split; [apply predict_scores_range |].
  split; [apply v3_predict_scores_range |].
  split; [apply predict_length | apply v3_predict_length].
Qed.

(** X18.  [_predict_with_rules] returns exactly one recommendation for
    each crop of the season set it is given: the test [score < 30] never
    holds, since every rule score is [round(50 + 40 * suitability, 1)] and
    lies between 58 and 90.  Every entry is marked as a season match, and
    the list is in descending score order. *)
Theorem X18_rules_one_entry_per_season_crop
    (set_iter : gset string -> list string) (f : FeatureInput)
    (crops : gset string)
    (Hiter : forall X, set_iter X ≡ₚ elements X) :
  let recs := Predictor._predict_with_rules set_iter f (Some crops) in
  Predictor.cropName <$> recs ≡ₚ elements crops
  /\ length recs = size crops
  /\ Forall (fun r =>
               Predictor.seasonMatch r = true
               /\ Predictor.suitabilityScore r
                  = Py.round
                      (50 + Predictor._calculate_temp_suitability
                              (Predictor.cropName r)
                              (get_num f "avg_temperature" 25) * 40) 1
               /\ 58 <= Predictor.suitabilityScore r <= 90)
            recs
  /\ StronglySorted
       (fun a b => Predictor.suitabilityScore b <= Predictor.suitabilityScore a)
       recs.
Proof.
  intros recs. subst recs.
  destruct (rules_names_length set_iter f crops Hiter) as [Hn Hl].
  split; [exact Hn |]. split; [exact Hl |]. split.
  - eapply Forall_impl; [apply (rules_entries set_iter f crops Hiter) |].
    intros r (_ & H1 & H2 & H3). repeat split; tauto.
  - unfold Predictor._predict_with_rules. cbv zeta.
    eapply StronglySorted_impl;
      [| apply (sort_desc_sorted _ rec_lt_asym rec_ge_trans)].
    intros a b. unfold Py.ge, Predictor.rec_lt. now rewrite ltb_false.
Qed.

Lemma X18_witness :
  let recs :=
    Predictor._predict_with_rules elements ludhiana_rabi
      (Some (list_to_set ["CEREALS_WHEAT"; "PULSES"])) in
  length recs = size (list_to_set ["CEREALS_WHEAT"; "PULSES"] : gset string)
  /\ Forall (fun r => 58 <= Predictor.suitabilityScore r <= 90) recs.
Proof.
  destruct (X18_rules_one_entry_per_season_crop elements ludhiana_rabi
              (list_to_set ["CEREALS_WHEAT"; "PULSES"])
              (fun X => reflexivity (elements X)))
    as (_ & Hlen & Hall & _).
  split; [exact Hlen |].
  eapply Forall_impl; [exact Hall |]. intros r (_ & _ & H). exact H.
Defined.



(** ** Environmental factors *)

Lemma soil_score_range (f : FeatureInput) :
  0 <= foldl (fun soil_score nutrient =>
                let val := get_num f nutrient 50 in
                if Py.leb 50 val then soil_score + 25
                else if Py.leb 30 val then soil_score + 15
                else soil_score)
             0 ["soil_zn"; "soil_fe"; "soil_cu"; "soil_mn"]
  <= 100.
Proof. cbn [foldl]. py_arith. Qed.

Lemma percent_rounded (x : Q) :
  0 <= x -> 0 <= Py.round (Py.min 100 x) 1 <= 100.
Proof.
  intros Hx. split.
  - apply (round1_ge 0). change (inject_Z 0) with 0. py_arith.
  - apply (round1_le 100). change (inject_Z 100) with 100. apply min_le_l.
Qed.

(** X20.  The four environmental factors [CropPredictor] reports are
    percentages: soil, nutrient and weather match lie in [0,100] and the
    historical-yield factor in [50,100], whatever the readings and the
    district history are. *)
Theorem X20_environmental_factors_are_percentages (f : FeatureInput)
    (historical : option (gmap string Q)) :
  let e := Predictor._calculate_environmental_factors f historical in
  0 <= soilMatch e <= 100
  /\ 0 <= npkMatch e <= 100
  /\ 0 <= weatherMatch e <= 100
  /\ 50 <= historicalYield e <= 100.
Proof.
  unfold Predictor._calculate_environmental_factors. cbv zeta.
  cbn [soilMatch npkMatch weatherMatch historicalYield].
  split; [apply percent_rounded, soil_score_range |].
  split; [apply percent_rounded; band_cases; lra |].
  split; [apply percent_rounded; band_cases; lra |].
  match goal with |- _ <= Py.round ?x 1 <= _ => assert (50 <= x <= 100) as Hx end.
  { destruct historical as [h |]; [| lra].
    destruct (bool_decide (h = ∅)); [lra |].
    destruct (Py.ltb 0 _); [| lra].
    set (cv := _ / _). py_arith. }
  split.
  - apply (round1_ge 50). change (inject_Z 50) with 50. lra.
  - apply (round1_le 100). change (inject_Z 100) with 100. lra.
Qed.

(** X21.  In the v3 class the soil and nutrient factors lie in [0,100],
    the weather factor lies in [10,100] (the temperature always counts for
    at least ten points) and the historical-yield factor is the constant
    75. *)
Theorem X21_v3_environmental_factors (crop : string) (f : FeatureInput) :
  let e := PredictorV3._calculate_environmental_factors crop f in
  0 <= soilMatch e <= 100
  /\ 0 <= npkMatch e <= 100
  /\ 10 <= weatherMatch e <= 100
  /\ historicalYield e = 75.0.
Proof.
  unfold PredictorV3._calculate_environmental_factors. cbv zeta.
  cbn [soilMatch npkMatch weatherMatch historicalYield].
  split; [apply percent_rounded, soil_score_range |].
  split; [apply percent_rounded; band_cases; lra |].
  split; [| reflexivity].
  pose proof (temp_suitability_range crop (get_num f "avg_temperature" 25))
    as Hts.
  change (PredictorV3._calculate_temp_suitability crop)
    with (Predictor._calculate_temp_suitability crop).
  set (ts := Predictor._calculate_temp_suitability crop _) in *.
  split.
  - apply (round1_ge 10). change (inject_Z 10) with 10.
    band_cases; py_arith.
  - apply (round1_le 100). change (inject_Z 100) with 100. apply min_le_l.
Qed.

(** ** The older rule-based scorer *)

Lemma round_mono (n : nat) (x y : Q) : x <= y -> Py.round x n <= Py.round y n.
Proof.
  intros H. destruct n as [| n]; [now apply round0_mono |].
  unfold Py.round. set (p := (10 ^ Pos.of_nat (S n))%positive).
  assert (Py.round_half_even (x * inject_Z (Z.pos p))
          <= Py.round_half_even (y * inject_Z (Z.pos p)))%Z as Hz.
  { apply round_half_even_mono. apply Qmult_le_compat_r; [exact H |].
    unfold Qle. simpl. lia. }
  unfold Qle. simpl. nia.
Qed.

Lemma round_zero (n : nat) : Py.round 0 n == 0.
Proof.
  destruct n as [| n]; [reflexivity |]. unfold Py.round.
  assert (0 * inject_Z (Z.pos (10 ^ Pos.of_nat (S n))) == inject_Z 0) as Hz
    by ring.
  rewrite (Qfloor_comp _ _ Hz) || idtac.
  unfold Py.round_half_even.
  rewrite (Qfloor_comp _ _ Hz), Qfloor_Z.
  assert (Qcompare (0 * inject_Z (Z.pos (10 ^ Pos.of_nat (S n))) - inject_Z 0)
            (1 # 2) = Lt) as ->.
  { rewrite <- Qlt_alt. rewrite Hz. reflexivity. }
  reflexivity.
Qed.

Lemma round_of_zero (n : nat) (x : Q) : x == 0 -> Py.round x n == 0.
Proof.
  intros Hx. pose proof (round_zero n) as H0. apply Qle_antisym.
  - apply Qle_trans with (Py.round 0 n); [apply round_mono; lra | lra].
  - apply Qle_trans with (Py.round 0 n); [lra | apply round_mono; lra].
Qed.

Lemma deviation_bounds (temp temp_min temp_max : Q) :
  temp_min <= temp <= temp_max ->
  0 <= Qabs (temp - (temp_min + temp_max) / 2)
       / Py.max 1 (temp_max - temp_min) <= 1.
Proof.
  intros [Hlo Hhi].
  assert (0 < Py.max 1 (temp_max - temp_min)) as Hpos by py_arith.
  split.
  - apply Qle_shift_div_l; [exact Hpos |]. rewrite Qmult_0_l.
    apply Qabs_nonneg.
  - apply Qle_shift_div_r; [exact Hpos |]. rewrite Qmult_1_l.
    apply Qabs_Qle_condition.
    pose proof (max_ge_r 1 (temp_max - temp_min)) as Hm.
    set (w := Py.max 1 _) in *. split; qlra.
Qed.

Lemma rule_score_cases (crop_data : Predictor.CropData)
    (f : FeatureInput) :
  let season := Py.upper (get_str f "season" "KHARIF") in
  let seasons := default [] (Predictor.cd_season crop_data) in
  let s := Predictor._calculate_suitability_score_rules crop_data f in
  (season ∉ seasons -> s = 0.0)
  /\ (season ∈ seasons -> 65 <= s <= 100).
Proof.
  intros season seasons s. subst s.
  unfold Predictor._calculate_suitability_score_rules. cbv zeta.
  fold season seasons. unfold Py.mem. split; intros Hs.
  - now rewrite bool_decide_eq_false_2 by exact Hs.
  - rewrite bool_decide_eq_true_2 by exact Hs. cbn [negb].
    destruct (default (20, 35) (Predictor.cd_temp_range crop_data))
      as [temp_min temp_max].
    destruct (default (50, 70) (Predictor.cd_humidity_range crop_data))
      as [h_min h_max].
    destruct (default (50, 150) (Predictor.cd_nitrogen_range crop_data))
      as [n_min n_max].
    destruct (default (15, 40) (Predictor.cd_phosphorus_range crop_data))
      as [p_min p_max].
    destruct (default (100, 200) (Predictor.cd_potassium_range crop_data))
      as [k_min k_max].
    set (temp := get_num f "avg_temperature" 25).
    match goal with
    | |- context [if ?c then 100.0 - 25 else 100.0 - ?d * 15] =>
        assert (75 <= (if c then 100.0 - 25 else 100.0 - d * 15) <= 100) as Ht
    end.
    { destruct (Py.ltb temp temp_min) eqn:E1; [cbn [orb]; lra |].
      destruct (Py.ltb temp_max temp) eqn:E2; cbn [orb]; [lra |].
      apply ltb_false in E1, E2.
      pose proof (deviation_bounds temp temp_min temp_max (conj E1 E2))
        as [Hd0 Hd1].
      set (d := Qabs _ / _) in *. lra. }
    match type of Ht with _ <= ?x <= _ => set (t := x) in * end.
    band_cases; py_arith.
Qed.

(** X22.  [_calculate_suitability_score_rules] gives 0 to a crop whose
    seasons do not include the upper-cased season of the input, and a
    score between 65 and 100 to every other crop, whatever its ranges and
    the readings are. *)
Theorem X22_rule_score_zero_or_at_least_65 (crop_data : Predictor.CropData)
    (f : FeatureInput) :
  let season := Py.upper (get_str f "season" "KHARIF") in
  let seasons := default [] (Predictor.cd_season crop_data) in
  let s := Predictor._calculate_suitability_score_rules crop_data f in
  (season ∉ seasons -> s = 0.0)
  /\ (season ∈ seasons -> 65 <= s <= 100).
Proof. exact (rule_score_cases crop_data f). Qed.

Lemma rule_yield_ordered (crop_data : Predictor.CropData)
    (f : FeatureInput)
    (Hbase : 0 <= default 2000 (Predictor.cd_base_yield crop_data)) :
  let base_yield := default 2000 (Predictor.cd_base_yield crop_data) in
  let y :=
    Predictor._predict_yield_rules crop_data
      (Predictor._calculate_suitability_score_rules crop_data f) in
  yp_min y <= yp_expected y <= yp_max y
  /\ yp_expected y <= Py.round base_yield 2
  /\ (Py.upper (get_str f "season" "KHARIF")
        ∉ default [] (Predictor.cd_season crop_data) ->
      yp_min y == 0 /\ yp_expected y == 0 /\ yp_max y == 0).
Proof.
  intros base_yield y. subst y.
  destruct (rule_score_cases crop_data f) as [Hout Hin].
  assert (0 <= Predictor._calculate_suitability_score_rules crop_data f <= 100)
    as Hs.
  { destruct (decide (Py.upper (get_str f "season" "KHARIF")
                      ∈ default [] (Predictor.cd_season crop_data)))
      as [H | H]; [specialize (Hin H); lra | rewrite (Hout H); lra]. }
  unfold Predictor._predict_yield_rules. cbv zeta.
  cbn [yp_min yp_max yp_expected]. fold base_yield in Hbase |- *.
  set (s := Predictor._calculate_suitability_score_rules crop_data f) in *.
  assert (0 <= base_yield * (s / 100) <= base_yield) as He.
  { assert (s / 100 == s * (1 # 100)) as -> by (unfold Qdiv; reflexivity).
    split.
    - apply Qmult_le_0_compat; lra.
    - assert (0 <= base_yield * (1 - s * (1 # 100))) as Hp
        by (apply Qmult_le_0_compat; lra).
      assert (base_yield * (1 - s * (1 # 100))
              == base_yield - base_yield * (s * (1 # 100))) as Hr by ring.
      rewrite Hr in Hp. lra. }
  set (e := base_yield * (s / 100)) in *.
  repeat split.
  - apply round_mono. lra.
  - apply round_mono. lra.
  - apply round_mono. lra.
  - specialize (Hout H). subst e. rewrite Hout.
    apply round_of_zero. unfold Qdiv. ring.
  - specialize (Hout H). subst e. rewrite Hout.
    apply round_of_zero. unfold Qdiv. ring.
  - specialize (Hout H). subst e. rewrite Hout.
    apply round_of_zero. unfold Qdiv. ring.
Qed.

Lemma crop_database_base_yield (name : string) (crop_data : Predictor.CropData) :
  Predictor._load_crop_database !! name = Some crop_data ->
  500 <= default 2000 (Predictor.cd_base_yield crop_data).
Proof.
  unfold Predictor._load_crop_database. intros H.
  apply elem_of_list_to_map_2 in H.
  repeat (apply elem_of_cons in H as [H | H];
          [inversion H; subst; simpl; lra |]).
  now apply elem_of_nil in H.
Qed.

(** X23.  For every crop of the database [_load_crop_database] builds,
    the rule score chained with [_predict_yield_rules] gives an ordered
    estimate that never exceeds the crop's base yield: min <= expected <=
    max and expected <= round(base_yield, 2); for a crop out of season all
    three are zero. *)
Theorem X23_rule_yield_ordered_and_capped (name : string)
    (crop_data : Predictor.CropData) (f : FeatureInput)
    (Hcrop : Predictor._load_crop_database !! name = Some crop_data) :
  let base_yield := default 2000 (Predictor.cd_base_yield crop_data) in
  let y :=
    Predictor._predict_yield_rules crop_data
      (Predictor._calculate_suitability_score_rules crop_data f) in
  yp_min y <= yp_expected y <= yp_max y
  /\ yp_expected y <= Py.round base_yield 2
  /\ (Py.upper (get_str f "season" "KHARIF")
        ∉ default [] (Predictor.cd_season crop_data) ->
      yp_min y == 0 /\ yp_expected y == 0 /\ yp_max y == 0).
Proof.
  apply rule_yield_ordered.
  pose proof (crop_database_base_yield name crop_data Hcrop). lra.
Qed.

Lemma X23_witness :
  let crop_data :=
    Predictor.crop_entry ["RABI"] (15, 25) (50, 70) (100, 180) (20, 40)
                         (120, 220) 3500 in
  let y :=
    Predictor._predict_yield_rules crop_data
      (Predictor._calculate_suitability_score_rules crop_data ghaziabad_kharif)
  in
  yp_min y <= yp_expected y <= yp_max y
  /\ yp_expected y <= Py.round 3500 2
  /\ (Py.upper (get_str ghaziabad_kharif "season" "KHARIF") ∉ ["RABI"] ->
      yp_min y == 0 /\ yp_expected y == 0 /\ yp_max y == 0).
Proof.
  apply (X23_rule_yield_ordered_and_capped "WHEAT"
           (Predictor.crop_entry ["RABI"] (15, 25) (50, 70) (100, 180) (20, 40)
                                 (120, 220) 3500)
           ghaziabad_kharif).
  vm_compute. reflexivity.
Defined.

(** ** Loading the artifacts *)








(** ** The order of a yield estimate *)

Lemma plain_estimate_ordered (pk : Q) :
  Py.max 50 (pk * 0.8) <= Py.max 100 pk.
Proof. py_arith. Qed.

Lemma blended_estimate_ordered (pk havg hmin : Q) :
  hmin <= havg ->
  Py.max 50 (Py.min (pk * 0.8) hmin) <= Py.max 100 (0.4 * pk + 0.6 * havg).
Proof. intros H. py_arith. Qed.

Lemma clamped_ordered (e mn mx : Q) (u : string) :
  Py.max 50 mn <= Py.max 100 e ->
  let y := {| yp_min := Py.round (Py.max 50 mn) 0;
              yp_max := Py.round (Py.max (Py.max 100 e * 1.1) mx) 0;
              yp_expected := Py.round (Py.max 100 e) 0;
              yp_unit := u |} in
  yp_min y <= yp_expected y <= yp_max y.
Proof.
  intros H y. subst y. simpl. split; apply round0_mono; [exact H |].
  pose proof (max_ge_l 100 e) as H1.
  pose proof (max_ge_l (Py.max 100 e * 1.1) mx) as H2.
  set (E := Py.max 100 e) in *. set (M := Py.max _ mx) in *. lra.
Qed.

(** X26.  An estimate that [_predict_yield_ml] takes from the regressor
    (a v1 or v2 model) is ordered, min <= expected <= max, when the
    district has no history for the crop or its history holds an average
    and a minimum with minimum <= average; so is the default it returns
    when the call raises. *)
Theorem X26_regressor_estimate_ordered (expm1 : Q -> Q) (m : Predictor.Model)
    (fv : list Q) (crop : string) (f : FeatureInput)
    (Hversion : Predictor.model_version m <> Some V3)
    (Hhistory :
       forall h,
         Predictor._get_district_historical_data m
           (Py.upper (get_str f "state" "")) (Py.upper (get_str f "district" ""))
           crop = Some h ->
         h = ∅
         \/ exists avg mn, h !! "avg_yield" = Some avg
                           /\ h !! "min_yield" = Some mn /\ mn <= avg) :
  let y := Predictor._predict_yield_ml expm1 m fv crop f in
  yp_min y <= yp_expected y <= yp_max y.
Proof.
  assert (forall log_yield : option Q,
    let y :=
      match
        match log_yield with
        | Some log_yield =>
            let predicted_yield := expm1 log_yield in
            let predicted_yield_kg := predicted_yield * 1000 in
            let historical :=
              Predictor._get_district_historical_data m
                (Py.upper (get_str f "state" ""))
                (Py.upper (get_str f "district" "")) crop in
            let '(expected, min_yield, max_yield) :=
              match historical with
              | Some historical =>
                  if bool_decide (historical = ∅)
                  then (predicted_yield_kg, predicted_yield_kg * 0.8,
                        predicted_yield_kg * 1.2)
                  else
                    let hist_avg :=
                      default predicted_yield (historical !! "avg_yield")
                      * 1000 in
                    let hist_min :=
                      default (predicted_yield * 0.7)
                              (historical !! "min_yield") * 1000 in
                    let hist_max :=
                      default (predicted_yield * 1.3)
                              (historical !! "max_yield") * 1000 in
                    (0.4 * predicted_yield_kg + 0.6 * hist_avg,
                     Py.min (predicted_yield_kg * 0.8) hist_min,
                     Py.max (predicted_yield_kg * 1.2) hist_max)
              | None =>
                  (predicted_yield_kg, predicted_yield_kg * 0.8,
                   predicted_yield_kg * 1.2)
              end in
            let expected := Py.max 100 expected in
            let min_yield := Py.max 50 min_yield in
            let max_yield := Py.max (expected * 1.1) max_yield in
            Some {| yp_min := Py.round min_yield 0;
                    yp_max := Py.round max_yield 0;
                    yp_expected := Py.round expected 0;
                    yp_unit := "kg/hectare" |}
        | None => None
        end
      with
      | Some yield_pred => yield_pred
      | None => Predictor.SAFE_DEFAULT_YIELD
      end in
    yp_min y <= yp_expected y <= yp_max y) as Hcore.
  { intros [log_yield |]; cbv zeta; [| simpl; lra].
    destruct (Predictor._get_district_historical_data m _ _ crop)
      as [h |] eqn:Eh.
    - destruct (Hhistory h eq_refl) as [-> | (avg & mn & Ha & Hm & Hle)].
      + rewrite bool_decide_eq_true_2 by reflexivity.
        apply clamped_ordered, plain_estimate_ordered.
      + destruct (bool_decide (h = ∅));
          [apply clamped_ordered, plain_estimate_ordered |].
        rewrite Ha, Hm. cbn [default].
        apply clamped_ordered, blended_estimate_ordered. unfold id. lra.
    - apply clamped_ordered, plain_estimate_ordered. }
  unfold Predictor._predict_yield_ml, Predictor._predict_yield_ml_try.
  cbv zeta.
  destruct (Predictor.model_version m) as [[] |]; try congruence;
    apply Hcore.
Qed.

Lemma X26_witness :
  let y :=
    Predictor._predict_yield_ml expm1_poly v2_model_with_history
      (Predictor._prepare_features v2_model_with_history ludhiana_rabi_cool)
      "CEREALS_WHEAT" ludhiana_rabi_cool in
  yp_min y <= yp_expected y <= yp_max y.
Proof.
  apply (X26_regressor_estimate_ordered expm1_poly v2_model_with_history).
  - discriminate.
  - intros h H. right. exists 4, 3.
    assert ((Predictor._get_district_historical_data v2_model_with_history
               (Py.upper (get_str ludhiana_rabi_cool "state" ""))
               (Py.upper (get_str ludhiana_rabi_cool "district" ""))
               "CEREALS_WHEAT"
             ≫= fun h : gmap string Q => h !! "avg_yield") = Some 4) as Havg
      by (vm_compute; reflexivity).
    assert ((Predictor._get_district_historical_data v2_model_with_history
               (Py.upper (get_str ludhiana_rabi_cool "state" ""))
               (Py.upper (get_str ludhiana_rabi_cool "district" ""))
               "CEREALS_WHEAT"
             ≫= fun h : gmap string Q => h !! "min_yield") = Some 3) as Hmin
      by (vm_compute; reflexivity).
    rewrite H in Havg, Hmin.
    split; [exact Havg |]. split; [exact Hmin |]. discriminate.
Defined.
